(** * pdf_to_json: structure reconstruction of a parsed PDF

    A shallow embedding of [pdf_to_json.py] and the properties of its
    heading classifier, paragraph buffer, page assembly and font profile.

    Conventions of the embedding.
    - A Python [str] is a [string]; a character is a code point below 256
      (Latin-1), which covers the ASCII text, the digits and the
      non-breaking space [\xa0] the program mentions.
    - A font size is the value [round(size, 1)], held as an integer number
      of tenths of a point ([Z]); the tolerance [tol = 0.5] is [5], and
      sizes are compared as these exact decimals.
    - A Python dict with a ["type"] key is a constructor of [item].
    - A call that may raise returns [exc]; [try]/[except] is written out. *)

From Stdlib Require Import ZArith List Bool Ascii String Lia.
From Stdlib Require Import Sorting.Sorted.
Import ListNotations.

Local Open Scope string_scope.
Local Open Scope list_scope.
Local Open Scope Z_scope.

(** ** Python string primitives *)

Module PyStr.

(** [str.isspace] on one character: TAB..CR, FS..US, space, NEL, NBSP. *)
Definition isspace (c : ascii) : bool :=
  let n := N_of_ascii c in
  (((9 <=? n) && (n <=? 13)) || ((28 <=? n) && (n <=? 32))
   || (n =? 133) || (n =? 160))%N.

(** The regular expression class [\d]. *)
Definition isdigit (c : ascii) : bool :=
  let n := N_of_ascii c in ((48 <=? n) && (n <=? 57))%N.

Definition nbsp : ascii := ascii_of_N 160.
Definition space : ascii := " "%char.
Definition newline : ascii := ascii_of_N 10.

(** [not s] for a string. *)
Definition is_empty (s : string) : bool :=
  match s with EmptyString => true | String _ _ => false end.

Fixpoint lstrip (s : string) : string :=
  match s with
  | EmptyString => EmptyString
  | String c s' => if isspace c then lstrip s' else s
  end.

Fixpoint rstrip (s : string) : string :=
  match s with
  | EmptyString => EmptyString
  | String c s' =>
      match rstrip s' with
      | EmptyString => if isspace c then EmptyString else String c EmptyString
      | r => String c r
      end
  end.

(** [s.strip()] *)
Definition strip (s : string) : string := rstrip (lstrip s).

(** [s.split()]: the maximal runs of non-whitespace characters. *)
Fixpoint split (s : string) : list string :=
  match s with
  | EmptyString => []
  | String c s' =>
      if isspace c then split s'
      else
        match s' with
        | EmptyString => [String c EmptyString]
        | String d _ =>
            if isspace d then String c EmptyString :: split s'
            else
              match split s' with
              | w :: ws => String c w :: ws
              | [] => [String c EmptyString]
              end
        end
  end.

(** [sep.join(l)] *)
Definition join (sep : string) (l : list string) : string :=
  String.concat sep l.

(** [s.replace(old, new)] for one-character [old] and [new]. *)
Fixpoint replace (old new : ascii) (s : string) : string :=
  match s with
  | EmptyString => EmptyString
  | String c s' =>
      String (if Ascii.eqb c old then new else c) (replace old new s')
  end.

(** [s.count(c)] for a one-character [c]. *)
Fixpoint count (c : ascii) (s : string) : Z :=
  match s with
  | EmptyString => 0
  | String d s' => (if Ascii.eqb d c then 1 else 0) + count c s'
  end.

(** [len(s)] *)
Definition len (s : string) : Z := Z.of_nat (String.length s).

Definition lower_char (c : ascii) : ascii :=
  let n := N_of_ascii c in
  if (((65 <=? n) && (n <=? 90))
      || ((192 <=? n) && (n <=? 222) && negb (n =? 215)))%N
  then ascii_of_N (n + 32) else c.

(** [s.lower()] *)
Fixpoint lower (s : string) : string :=
  match s with
  | EmptyString => EmptyString
  | String c s' => String (lower_char c) (lower s')
  end.

(** [sub in s] *)
Fixpoint contains (sub s : string) : bool :=
  String.prefix sub s
  || match s with
     | EmptyString => false
     | String _ s' => contains sub s'
     end.

(** What the last group of the pattern (any characters but a newline)
    takes: the characters before the first newline. *)
Fixpoint dot_star (s : string) : string :=
  match s with
  | EmptyString => EmptyString
  | String c s' =>
      if Ascii.eqb c newline then EmptyString else String c (dot_star s')
  end.

(** Every character is whitespace. *)
Fixpoint blank (s : string) : bool :=
  match s with
  | EmptyString => true
  | String c s' => isspace c && blank s'
  end.

End PyStr.

Import PyStr.

(** ** [is_numbered_heading] *)

Record num_info := mk_num_info
  { numbering : string; title : string; level : Z }.

(** The rest of the numbering token (digits, then any number of groups
    of a dot and digits) once its first digit is read, taken greedily:
    more digits, or a dot that a digit follows.  Returns the characters
    taken and the text left. *)
Fixpoint numbering_tail (s : string) : string * string :=
  match s with
  | EmptyString => (EmptyString, EmptyString)
  | String c s' =>
      if isdigit c then
        let '(t, r) := numbering_tail s' in (String c t, r)
      else if Ascii.eqb c "."%char then
        match s' with
        | String d s'' =>
            if isdigit d then
              let '(t, r) := numbering_tail s'' in
              (String c (String d t), r)
            else (EmptyString, s)
        | EmptyString => (EmptyString, s)
        end
      else (EmptyString, s)
  end.

(** [re.match] of the numbering pattern on [text]: leading whitespace,
    the numbering token (group 1), whitespace or one hyphen, whitespace,
    and the rest of the line (group 2).  No shorter token can match where
    the longest fails, since it would be followed by a digit or a dot.
    Returns the two groups when the pattern matches. *)
Definition match_numbering (text : string) : option (string * string) :=
  match lstrip text with
  | EmptyString => None
  | String c s' =>
      if isdigit c then
        let '(t, r) := numbering_tail s' in
        match r with
        | EmptyString => None
        | String d r' =>
            if isspace d || Ascii.eqb d "-"%char
            then Some (String c t, dot_star (lstrip r'))
            else None
        end
      else None
  end.

Definition is_numbered_heading (text : string) : option num_info :=
  if is_empty text then None
  else
    match match_numbering text with
    | Some (num, g2) =>
        let rest := strip g2 in
        let lvl := count "."%char num in
        Some {| numbering := num; title := rest; level := lvl + 1 |}
    | None => None
    end.

(** ** [clean_line] *)

Definition clean_line (text : string) : string :=
  join " " (split (replace nbsp space text)).

(** ** Data model *)

(** A span of [page.get_text("dict")]: its text, its size as
    [round(size, 1)] in tenths of a point, and its font name. *)
Record span := mk_span { text : string; size : Z; font : string }.

Record line := mk_line { spans : list span }.

(** A block: [btype] is [0] for text, [1] for an image. *)
Record block := mk_block { btype : Z; lines : list line }.

(** A page as the layout parser gives it: the blocks of
    [get_text("dict")], the string of [get_text("text")] and the xrefs
    of [get_images(full=True)]. *)
Record page := mk_page
  { blocks : list block; raw_text : string; images : list Z }.

Definition document := list page.

Definition grid := list (list string).

(** The content items, one constructor per value of the ["type"] key. *)
Inductive item : Type :=
| Heading (lvl : Z) (txt : string)
| Paragraph (section sub_section : option string) (txt : string)
| Chart (section : option string) (description : string)
        (chart_data : option grid)
| Table (section : option string) (description : option string)
        (table_data : grid).

Record page_result := mk_page_result
  { page_number : Z; content : list item }.

(** ** [gather_font_sizes] *)

Definition line_sizes (ln : line) : list Z := map size (spans ln).

Definition block_sizes (b : block) : list Z :=
  if btype b =? 0 then flat_map line_sizes (lines b) else [].

Definition page_sizes (pg : page) : list Z :=
  flat_map block_sizes (blocks pg).

(** The list [sizes] when the loops end. *)
Definition collected_sizes (doc : document) : list Z :=
  flat_map page_sizes doc.

(** [set(sizes)]: the distinct values. *)
Definition py_set (l : list Z) : list Z := nodup Z.eq_dec l.

Fixpoint insert_desc (x : Z) (l : list Z) : list Z :=
  match l with
  | [] => [x]
  | y :: l' => if y <? x then x :: l else y :: insert_desc x l'
  end.

(** [sorted(l, reverse=True)] *)
Definition sorted_desc (l : list Z) : list Z :=
  fold_right insert_desc [] l.

Definition gather_font_sizes (doc : document) : list Z :=
  sorted_desc (py_set (collected_sizes doc)).

(** [sizes[0] if len(sizes) >= 1 else None] *)
Definition section_size_of (sizes : list Z) : option Z :=
  match sizes with s0 :: _ => Some s0 | [] => None end.

(** [sizes[1] if len(sizes) >= 2 else None] *)
Definition subsection_size_of (sizes : list Z) : option Z :=
  match sizes with _ :: s1 :: _ => Some s1 | _ => None end.

(** ** [extract_paragraphs_and_headings_from_page] *)

(** The local variables of the page loop. *)
Record builder := mk_builder
  { current_section : option string;
    current_sub : option string;
    out : list item;
    paragraph_buffer : list string }.

Definition init_builder : builder :=
  {| current_section := None; current_sub := None;
     out := []; paragraph_buffer := [] |}.

Definition flush_paragraph (st : builder) : builder :=
  match paragraph_buffer st with
  | [] => st
  | _ :: _ =>
      {| current_section := current_section st;
         current_sub := current_sub st;
         out := out st
                ++ [Paragraph (current_section st) (current_sub st)
                      (clean_line (join " " (paragraph_buffer st)))];
         paragraph_buffer := [] |}
  end.

(** [content.append(it)] *)
Definition emit (it : item) (st : builder) : builder :=
  {| current_section := current_section st;
     current_sub := current_sub st;
     out := out st ++ [it];
     paragraph_buffer := paragraph_buffer st |}.

(** A level 1 heading: the section is set and the subsection cleared. *)
Definition open_section (t : string) (st : builder) : builder :=
  emit (Heading 1 t)
    {| current_section := Some t; current_sub := None;
       out := out st; paragraph_buffer := paragraph_buffer st |}.

(** A level 2 heading: only the subsection is set. *)
Definition open_subsection (t : string) (st : builder) : builder :=
  emit (Heading 2 t)
    {| current_section := current_section st; current_sub := Some t;
       out := out st; paragraph_buffer := paragraph_buffer st |}.

(** [paragraph_buffer.append(t)] *)
Definition buffer_line (t : string) (st : builder) : builder :=
  {| current_section := current_section st;
     current_sub := current_sub st;
     out := out st;
     paragraph_buffer := paragraph_buffer st ++ [t] |}.

(** Truth value of a threshold: [None] and [0.0] are false. *)
Definition truthy (o : option Z) : bool :=
  match o with Some v => negb (v =? 0) | None => false end.

(** [o or d] *)
Definition or_else (o : option Z) (d : Z) : Z :=
  match o with
  | Some v => if v =? 0 then d else v
  | None => d
  end.

(** [statistics.mean], used on a one-element list only. *)
Definition mean (l : list Z) : Z :=
  fold_right Z.add 0 l / Z.of_nat (List.length l).

(** [ref and max_size >= (ref - tol)], on exact tenths.  The code makes
    this test on binary floats, where [ref - tol] is rounded: a size that
    is exactly [ref - tol] in decimal can fail it (8.3 - 0.5 is
    7.800000000000001, above 7.8).  The properties below do not turn on
    that boundary: they use sizes away from it, or only that a size of at
    least [ref] passes the test, which holds on floats as well. *)
Definition size_rule (ref : option Z) (max_size tol : Z) : bool :=
  match ref with
  | Some v => negb (v =? 0) && (max_size >=? v - tol)
  | None => false
  end.

(** The condition of the bold branch. *)
Definition bold_rule (is_bold : bool) (line_text : string) (max_size : Z)
    (section_size subsection_size : option Z) : bool :=
  is_bold && (len line_text <? 120)
  && (max_size >?
      (if truthy subsection_size
       then mean [or_else subsection_size (or_else section_size max_size)]
       else max_size)).

(** The branch of the chain of [if]s a line takes, in the order of the
    code. *)
Inductive rule : Type :=
| SectionSize | SubsectionSize | Numbered (ni : num_info) | BoldShort | Body.

Definition classify (section_size subsection_size : option Z) (tol : Z)
    (line_text : string) (max_size : Z) (is_bold : bool) : rule :=
  if size_rule section_size max_size tol then SectionSize
  else if size_rule subsection_size max_size tol then SubsectionSize
  else
    match is_numbered_heading line_text with
    | Some ni => Numbered ni
    | None =>
        if bold_rule is_bold line_text max_size section_size subsection_size
        then BoldShort else Body
    end.

(** [line_text]: the span texts joined and stripped. *)
Definition line_text_of (sps : list span) : string :=
  strip (join "" (map text sps)).

(** [max(round(s.size, 1) for s in spans)], for a line with a span. *)
Definition max_size_of (sp : span) (rest : list span) : Z :=
  fold_left Z.max (map size rest) (size sp).

Definition is_bold_of (sps : list span) : bool :=
  existsb (fun f => contains "Bold" f || contains "bold" (lower f))
    (map font sps).

(** [1 if num_info["level"] == 1 else 2] *)
Definition heading_level_of (ni : num_info) : Z :=
  if level ni =? 1 then 1 else 2.

(** [num_info["title"] or line_text], or [line_text] without a match. *)
Definition heading_text_of (line_text : string) : string :=
  match is_numbered_heading line_text with
  | Some ni => if is_empty (title ni) then line_text else title ni
  | None => line_text
  end.

(** The body of the loop over the lines of a text block. *)
Definition step_line (section_size subsection_size : option Z) (tol : Z)
    (st : builder) (ln : line) : builder :=
  match spans ln with
  | [] => st
  | sp :: rest =>
      let line_text := line_text_of (sp :: rest) in
      if is_empty line_text then st
      else
        let max_size := max_size_of sp rest in
        let is_bold := is_bold_of (sp :: rest) in
        let heading_text := heading_text_of line_text in
        match classify section_size subsection_size tol
                line_text max_size is_bold with
        | SectionSize => open_section heading_text (flush_paragraph st)
        | SubsectionSize =>
            open_subsection heading_text (flush_paragraph st)
        | Numbered ni =>
            if heading_level_of ni =? 1
            then open_section heading_text (flush_paragraph st)
            else open_subsection heading_text (flush_paragraph st)
        | BoldShort => open_subsection line_text (flush_paragraph st)
        | Body => buffer_line line_text st
        end
  end.

Definition image_block_description : string :=
  "image block detected (image data handled separately)".

(** The body of the loop over the blocks of a page. *)
Definition step_block (section_size subsection_size : option Z) (tol : Z)
    (st : builder) (b : block) : builder :=
  if btype b =? 0 then
    fold_left (step_line section_size subsection_size tol) (lines b) st
  else if btype b =? 1 then
    let st' := flush_paragraph st in
    emit (Chart (current_section st') image_block_description None) st'
  else flush_paragraph st.

Definition build_page (section_size subsection_size : option Z) (tol : Z)
    (pg : page) : builder :=
  flush_paragraph
    (fold_left (step_block section_size subsection_size tol)
       (blocks pg) init_builder).

Definition extract_paragraphs_and_headings_from_page (pg : page)
    (section_size subsection_size : option Z) (tol : Z) : list item :=
  out (build_page section_size subsection_size tol pg).

(** The default [tol=0.5]. *)
Definition default_tol : Z := 5.

(** ** Calls that may raise *)

Inductive exc (A : Type) : Type :=
| Val (a : A)
| Raise.

Arguments Val {A} a.
Arguments Raise {A}.

Definition bind {A B : Type} (m : exc A) (k : A -> exc B) : exc B :=
  match m with Val a => k a | Raise => Raise end.

Notation "x <- m ;; k" := (bind m (fun x => k))
  (at level 61, m at next level, right associativity).

(** [try: body / except Exception: handler] *)
Definition try_except {A : Type} (body : exc A) (handler : A) : A :=
  match body with Val a => a | Raise => handler end.

Inductive flavor : Type := Stream | Lattice.

Definition other_flavor (f : flavor) : flavor :=
  match f with Stream => Lattice | Lattice => Stream end.

(** ** The collaborators and the page assembly *)

Section Collaborators.

(** A decoded image. *)
Variable pil_image : Type.

(** [camelot.read_pdf(pdf_path, pages=str(page_no), flavor=f)]: the grids
    [t.df.values.tolist()] of the tables found. *)
Variable read_pdf : Z -> flavor -> exc (list grid).

(** [doc.extract_image(xref)] and [Image.open(...).convert("RGB")]. *)
Variable extract_image : Z -> exc pil_image.

(** [pytesseract.image_to_string] *)
Variable image_to_string : pil_image -> exc string.

(** [convert_from_path(pdf_path, first_page=n, last_page=n)] *)
Variable convert_from_path : Z -> exc (list pil_image).

Definition table_item (g : grid) : item := Table None None g.

Definition extract_tables (page_no : Z) (flavor_first : flavor)
  : list item :=
  try_except
    (tables <- read_pdf page_no flavor_first ;;
     tables' <- match tables with
                | [] => read_pdf page_no (other_flavor flavor_first)
                | _ :: _ => Val tables
                end ;;
     Val (map table_item tables'))
    [].

(** [desc or "image detected"] *)
Definition description_or_default (desc : option string) : string :=
  match desc with
  | Some d => if is_empty d then "image detected" else d
  | None => "image detected"
  end.

(** The item appended for one image of [image_list]. *)
Definition image_item (enable_ocr : bool) (xref : Z) : item :=
  try_except
    (pil_img <- extract_image xref ;;
     let desc :=
       if enable_ocr
       then try_except (s <- image_to_string pil_img ;; Val (Some (strip s)))
              None
       else None in
     Val (Chart None (description_or_default desc) None))
    (Chart None "image detected (failed to extract)" None).

Definition extract_images_and_ocr (pg : page) (enable_ocr : bool)
  : list item :=
  map (image_item enable_ocr) (images pg).

Definition ocr_page_image (page_no : Z) : string :=
  try_except
    (imgs <- convert_from_path page_no ;;
     match imgs with
     | im :: _ => image_to_string im
     | [] => Val ""
     end)
    "".

(** [not page_text or page_text.strip() == ""] *)
Definition no_extractable_text (pg : page) : bool :=
  is_empty (raw_text pg) || is_empty (strip (raw_text pg)).

(** The OCR paragraph of a page without text, when there is one. *)
Definition ocr_items (enable_ocr : bool) (page_number : Z) : list item :=
  if enable_ocr then
    let ocr_text := ocr_page_image page_number in
    if negb (is_empty ocr_text) && negb (is_empty (strip ocr_text))
    then [Paragraph None None (clean_line ocr_text)]
    else []
  else [].

(** [content_items] of one page of the loop of [parse_pdf]. *)
Definition page_content (section_size subsection_size : option Z)
    (enable_ocr : bool) (page_number : Z) (pg : page) : list item :=
  if no_extractable_text pg then
    ocr_items enable_ocr page_number
    ++ extract_images_and_ocr pg enable_ocr
  else
    extract_paragraphs_and_headings_from_page pg
      section_size subsection_size default_tol
    ++ extract_tables page_number Stream
    ++ extract_images_and_ocr pg enable_ocr.

(** The loop [for i in range(len(doc))], from index [i] on. *)
Fixpoint pages_loop (section_size subsection_size : option Z)
    (enable_ocr : bool) (pages : list page) (i : Z)
    (result : list page_result) : list page_result :=
  match pages with
  | [] => result
  | pg :: rest =>
      let page_number := i + 1 in
      pages_loop section_size subsection_size enable_ocr rest (i + 1)
        (result
         ++ [{| page_number := page_number;
                content := page_content section_size subsection_size
                             enable_ocr page_number pg |}])
  end.

(** [parse_pdf]: [opened] is what opening the file gives ([fitz.open],
    then [pdfplumber.open]), and the value is the [result["pages"]] written
    to the output file. *)
Definition parse_pdf (opened : exc document) (enable_ocr : bool)
  : exc (list page_result) :=
  doc <- opened ;;
  let sizes := gather_font_sizes doc in
  let section_size := section_size_of sizes in
  let subsection_size := subsection_size_of sizes in
  Val (pages_loop section_size subsection_size enable_ocr doc 0 []).

End Collaborators.

(** ** Predicates and sample inputs of the statements *)

(** A report page: a numbered title at 18.0, a caption at 14.0 and body
    text at 11.0. *)
Definition report_page : page :=
  {| blocks :=
       [ {| btype := 0;
            lines :=
              [ {| spans := [ {| text := "2.1 Revenue Growth";
                                 size := 180; font := "Helvetica" |} ] |};
                {| spans := [ {| text := "Highlights";
                                 size := 140; font := "Helvetica" |} ] |};
                {| spans := [ {| text := "Revenue grew in every region.";
                                 size := 110; font := "Helvetica" |} ] |} ]
         |} ];
     raw_text := "2.1 Revenue Growth Highlights Revenue grew in every region.";
     images := [] |}.

(** A page with one bold line and nothing else. *)
Definition bold_line_page : page :=
  {| blocks :=
       [ {| btype := 0;
            lines :=
              [ {| spans := [ {| text := "Executive Summary";
                                 size := 120;
                                 font := "Helvetica-Bold" |} ] |} ] |} ];
     raw_text := "Executive Summary";
     images := [] |}.

(** A scanned page: one image block and no text. *)
Definition scanned_page : page :=
  {| blocks := [ {| btype := 1; lines := [] |} ];
     raw_text := "";
     images := [7] |}.

Definition is_chart_without_section (it : item) : Prop :=
  exists d, it = Chart None d None.

Definition is_table_without_section (it : item) : Prop :=
  exists g, it = Table None None g.

(** Collaborators that all succeed; the OCR reads one fixed string. *)
Definition read_pdf_one_table : Z -> flavor -> exc (list grid) :=
  fun _ f =>
    match f with
    | Stream => Val []
    | Lattice => Val [[["Region"; "Revenue"]; ["North"; "12"]]]
    end.

Definition decode_ok : Z -> exc unit := fun _ => Val tt.

Definition ocr_reads_q3 : unit -> exc string :=
  fun _ => Val "Q3 revenue up 12%".

Definition render_ok : Z -> exc (list unit) := fun _ => Val [tt].

(** Collaborators that all raise. *)
Definition read_pdf_fails : Z -> flavor -> exc (list grid) :=
  fun _ _ => Raise.

Definition decode_fails : Z -> exc unit := fun _ => Raise.

Definition ocr_fails : unit -> exc string := fun _ => Raise.

Definition render_fails : Z -> exc (list unit) := fun _ => Raise.

(** A size some span of the document has. *)
Definition observed (doc : document) (x : Z) : Prop :=
  exists pg b ln sp,
    In pg doc /\ In b (blocks pg) /\ btype b = 0
    /\ In ln (lines b) /\ In sp (spans ln) /\ size sp = x.

(** No character of [w] is whitespace. *)
Fixpoint nospace (w : string) : bool :=
  match w with
  | EmptyString => true
  | String c w' => negb (isspace c) && nospace w'
  end.

(** A word of [split]: not empty and without whitespace. *)
Definition word (w : string) : Prop := w <> "" /\ nospace w = true.

(** Every whitespace character of [s] is the ASCII space and is followed
    by a character that is not whitespace. *)
Fixpoint single_spaced (s : string) : bool :=
  match s with
  | EmptyString => true
  | String c s' =>
      (if isspace c
       then Ascii.eqb c space
            && match s' with
               | String d _ => negb (isspace d)
               | EmptyString => false
               end
       else true)
      && single_spaced s'
  end.

(** Whitespace runs collapsed to single spaces and both ends trimmed. *)
Definition normalized (s : string) : bool :=
  match s with
  | EmptyString => true
  | String c _ => negb (isspace c)
  end
  && single_spaced s.

(** The string starts with a character that is not whitespace. *)
Definition starts_nospace (s : string) : bool :=
  match s with
  | String c _ => negb (isspace c)
  | EmptyString => false
  end.

(** A paragraph item has text; other items are not constrained. *)
Definition paragraph_has_text (it : item) : Prop :=
  match it with
  | Paragraph _ _ t => t <> ""
  | _ => True
  end.

(** The invariant of the page loop: the buffered lines are not blank and
    the paragraphs emitted so far have text. *)
Definition builder_ok (st : builder) : Prop :=
  Forall (fun t => blank t = false) (paragraph_buffer st)
  /\ Forall paragraph_has_text (out st).

(** A line whose text has a non-breaking space and runs of spaces. *)
Definition net_income_text : string :=
  ("Net" ++ String nbsp " Income   grew")%string.

Definition net_income_page : page :=
  {| blocks :=
       [ {| btype := 0;
            lines := [ {| spans := [ {| text := net_income_text;
                                        size := 110;
                                        font := "Helvetica" |} ] |} ] |} ];
     raw_text := net_income_text;
     images := [] |}.

(** ** Further predicates and sample inputs *)

(** What may follow the first digit of a numbering token: digits, and
    dots that a digit follows. *)
Fixpoint token_tail (s : string) : bool :=
  match s with
  | EmptyString => true
  | String c s' =>
      if isdigit c then token_tail s'
      else if Ascii.eqb c "."%char then
        match s' with
        | String d s'' => isdigit d && token_tail s''
        | EmptyString => false
        end
      else false
  end.

(** A numbering token: groups of digits separated by single dots. *)
Definition numbering_token (s : string) : bool :=
  match s with
  | String c s' => isdigit c && token_tail s'
  | EmptyString => false
  end.

Definition starts_digit (s : string) : bool :=
  match s with
  | String c _ => isdigit c
  | EmptyString => false
  end.

(** The text after a token does not continue it: it does not start with a
    digit, nor with a dot that a digit follows. *)
Definition token_stops (r : string) : bool :=
  match r with
  | EmptyString => true
  | String c r' =>
      negb (isdigit c) && negb (Ascii.eqb c "."%char && starts_digit r')
  end.

(** A separator of the pattern: whitespace or a hyphen. *)
Definition is_separator (d : ascii) : bool :=
  isspace d || Ascii.eqb d "-"%char.

(** The lines the page loop visits: those of the text blocks. *)
Definition block_lines (b : block) : list line :=
  if btype b =? 0 then lines b else [].

Definition page_lines (pg : page) : list line :=
  flat_map block_lines (blocks pg).

(** The text of a line and the branch it takes; [None] for a line that is
    skipped (no span, or no text once stripped). *)
Definition line_rule (ss sub : option Z) (tol : Z) (ln : line)
  : option (string * rule) :=
  match spans ln with
  | [] => None
  | sp :: rest =>
      let t := line_text_of (sp :: rest) in
      if is_empty t then None
      else Some (t, classify ss sub tol t (max_size_of sp rest)
                      (is_bold_of (sp :: rest)))
  end.

(** The heading a line gives, as level and text, if it gives one. *)
Definition line_heading (ss sub : option Z) (tol : Z) (ln : line)
  : list (Z * string) :=
  match line_rule ss sub tol ln with
  | Some (t, SectionSize) => [(1, heading_text_of t)]
  | Some (t, SubsectionSize) => [(2, heading_text_of t)]
  | Some (t, Numbered ni) => [(heading_level_of ni, heading_text_of t)]
  | Some (t, BoldShort) => [(2, t)]
  | Some (_, Body) => []
  | None => []
  end.

(** The text a line adds to the paragraph buffer, if it does. *)
Definition line_body (ss sub : option Z) (tol : Z) (ln : line)
  : list string :=
  match line_rule ss sub tol ln with
  | Some (t, Body) => [t]
  | _ => []
  end.

(** The headings of a content list, as level and text. *)
Definition headings (items : list item) : list (Z * string) :=
  flat_map (fun it => match it with Heading l t => [(l, t)] | _ => [] end)
    items.

(** The texts of the paragraphs of a content list. *)
Definition paragraph_texts (items : list item) : list string :=
  flat_map (fun it => match it with Paragraph _ _ t => [t] | _ => [] end)
    items.

(** The stream built so far accounts for the lines [L]. *)
Definition accounts_for (ss sub : option Z) (tol : Z) (st : builder)
    (L : list line) : Prop :=
  headings (out st) = flat_map (line_heading ss sub tol) L
  /\ flat_map split (paragraph_texts (out st))
     ++ flat_map split (paragraph_buffer st)
     = flat_map split (flat_map (line_body ss sub tol) L).

(** An item as the text stream of a page may hold it. *)
Definition stream_item_ok (it : item) : Prop :=
  match it with
  | Heading l t => (l = 1 \/ l = 2) /\ starts_nospace t = true
  | Paragraph _ _ t => normalized t = true /\ t <> ""
  | Chart _ d cd => d = image_block_description /\ cd = None
  | Table _ _ _ => False
  end.

(** The two invariants of the loop, kept together. *)
Definition stream_ok (st : builder) : Prop :=
  builder_ok st /\ Forall stream_item_ok (out st).

(** The section and subsection in force after an item: a level 1 heading
    sets the section and clears the subsection, another heading sets the
    subsection, other items change nothing. *)
Definition next_context (ctx : option string * option string) (it : item)
  : option string * option string :=
  match it with
  | Heading l t => if l =? 1 then (Some t, None) else (fst ctx, Some t)
  | _ => ctx
  end.

(** The context that the headings of [items] leave, from none. *)
Definition context_after (items : list item)
  : option string * option string :=
  fold_left next_context items (None, None).

(** Every paragraph and chart carries the context in force where it
    stands. *)
Fixpoint well_tagged (ctx : option string * option string)
    (items : list item) : Prop :=
  match items with
  | [] => True
  | it :: rest =>
      match it with
      | Paragraph s u _ => s = fst ctx /\ u = snd ctx
      | Chart s _ _ => s = fst ctx
      | _ => True
      end
      /\ well_tagged (next_context ctx it) rest
  end.

(** The stream is well tagged and the builder holds its context. *)
Definition tags_ok (st : builder) : Prop :=
  well_tagged (None, None) (out st)
  /\ context_after (out st) = (current_section st, current_sub st).

(** The page with every font name [f] replaced by [g f]. *)
Definition rename_span (g : string -> string) (sp : span) : span :=
  {| text := text sp; size := size sp; font := g (font sp) |}.

Definition rename_line (g : string -> string) (ln : line) : line :=
  {| spans := map (rename_span g) (spans ln) |}.

Definition rename_block (g : string -> string) (b : block) : block :=
  {| btype := btype b; lines := map (rename_line g) (lines b) |}.

Definition rename_fonts (g : string -> string) (pg : page) : page :=
  {| blocks := map (rename_block g) (blocks pg);
     raw_text := raw_text pg;
     images := images pg |}.

(** A page of plain text in one size. *)
Definition one_size_page : page :=
  {| blocks :=
       [ {| btype := 0;
            lines :=
              [ {| spans := [ {| text := "Dear customer,";
                                 size := 110; font := "Times" |} ] |};
                {| spans := [ {| text := "thank you for your order.";
                                 size := 110; font := "Times" |} ] |} ]
         |} ];
     raw_text := "Dear customer, thank you for your order.";
     images := [] |}.

(** * Properties *)

(** ** The numbering pattern on examples *)

Example is_numbered_heading_2_1 :
  is_numbered_heading "2.1 Revenue Growth"
  = Some {| numbering := "2.1"; title := "Revenue Growth"; level := 2 |}.
Proof. reflexivity. Qed.

Example is_numbered_heading_dot_space :
  is_numbered_heading "1. Introduction" = None.
Proof. reflexivity. Qed.

Example is_numbered_heading_hyphen :
  is_numbered_heading "  3.10.2-  Notes  "
  = Some {| numbering := "3.10.2"; title := "Notes"; level := 3 |}.
Proof. reflexivity. Qed.

(** ** The chain of rules *)

Lemma size_rule_true (ref : option Z) (max_size tol : Z) :
  size_rule ref max_size tol = true <->
  exists v, ref = Some v /\ v <> 0 /\ v - tol <= max_size.
Proof.
  unfold size_rule. destruct ref as [v|].
  - rewrite andb_true_iff, negb_true_iff, Z.eqb_neq, Z.geb_le.
    split.
    + intros [Hv Hm]. exists v. auto.
    + intros (w & Hw & Hv & Hm). injection Hw as <-. auto.
  - split; [discriminate | intros (w & Hw & _); discriminate].
Qed.

Lemma mean_singleton (x : Z) : mean [x] = x.
Proof. unfold mean. simpl. rewrite Z.add_0_r. apply Z.div_1_r. Qed.

Lemma or_else_truthy (o : option Z) (d : Z) :
  truthy o = true -> o = Some (or_else o d).
Proof.
  destruct o as [v|]; simpl; [|discriminate].
  destruct (v =? 0); [discriminate | reflexivity].
Qed.

(** Where neither size rule fires, the bold condition is false. *)
Lemma bold_rule_dead (ss sub : option Z) (tol : Z) (line_text : string)
    (max_size : Z) (is_bold : bool) :
  0 <= tol ->
  size_rule sub max_size tol = false ->
  bold_rule is_bold line_text max_size ss sub = false.
Proof.
  intros Htol Hsub. unfold bold_rule.
  destruct (truthy sub) eqn:Ht.
  - rewrite mean_singleton.
    pose proof (or_else_truthy sub (or_else ss max_size) Ht) as Hs.
    set (v := or_else sub (or_else ss max_size)) in *.
    rewrite Hs in Hsub, Ht. simpl in Hsub, Ht. rewrite Ht in Hsub.
    simpl in Hsub.
    assert (Hlt : max_size < v - tol).
    { destruct (max_size >=? v - tol) eqn:E; [discriminate|].
      unfold Z.geb in E. destruct (max_size ?= v - tol) eqn:C;
        try discriminate. exact C. }
    assert (Hgt : (max_size >? v) = false).
    { unfold Z.gtb. destruct (max_size ?= v) eqn:C; try reflexivity.
      apply Z.compare_gt_iff in C. lia. }
    rewrite Hgt. apply andb_false_r.
  - assert (Hgt : (max_size >? max_size) = false).
    { unfold Z.gtb. now rewrite Z.compare_refl. }
    rewrite Hgt. apply andb_false_r.
Qed.

(** With both thresholds unset only the numbering rule is left. *)
Lemma classify_unset (tol : Z) (line_text : string) (max_size : Z)
    (is_bold : bool) :
  classify None None tol line_text max_size is_bold
  = match is_numbered_heading line_text with
    | Some ni => Numbered ni
    | None => Body
    end.
Proof.
  unfold classify. simpl.
  destruct (is_numbered_heading line_text); [reflexivity|].
  unfold bold_rule. simpl.
  assert (Hgt : (max_size >? max_size) = false).
  { unfold Z.gtb. now rewrite Z.compare_refl. }
  rewrite Hgt, andb_false_r. reflexivity.
Qed.

(** A size rule that fires decides the branch, whatever the text is. *)
Lemma classify_section_size_first (ss sub : option Z) (tol : Z)
    (line_text : string) (max_size : Z) (is_bold : bool) :
  size_rule ss max_size tol = true ->
  classify ss sub tol line_text max_size is_bold = SectionSize.
Proof. intros H. unfold classify. now rewrite H. Qed.

(** The numbering rule decides the lines that no size rule takes. *)
Lemma classify_numbered_below_sizes (ss sub : option Z) (tol : Z)
    (line_text : string) (max_size : Z) (is_bold : bool) (ni : num_info) :
  size_rule ss max_size tol = false ->
  size_rule sub max_size tol = false ->
  is_numbered_heading line_text = Some ni ->
  classify ss sub tol line_text max_size is_bold = Numbered ni.
Proof. intros H1 H2 H3. unfold classify. now rewrite H1, H2, H3. Qed.

(** C1: the numbering rule is said to come first, so that "2.1 Revenue
    Growth" is a subsection heading whatever its size.  In the code the
    two size rules come first: at the largest size of the document the
    line takes the section-size branch and becomes a level 1 heading,
    its text being the title after the numbering. *)
Theorem numbered_line_at_section_size_is_level_1 :
  let sizes := gather_font_sizes [report_page] in
  sizes = [180; 140; 110]
  /\ is_numbered_heading "2.1 Revenue Growth"
     = Some {| numbering := "2.1"; title := "Revenue Growth"; level := 2 |}
  /\ classify (section_size_of sizes) (subsection_size_of sizes) default_tol
       "2.1 Revenue Growth" 180 false = SectionSize
  /\ extract_paragraphs_and_headings_from_page report_page
       (section_size_of sizes) (subsection_size_of sizes) default_tol
     = [ Heading 1 "Revenue Growth";
         Heading 2 "Highlights";
         Paragraph (Some "Revenue Growth") (Some "Highlights")
           "Revenue grew in every region." ].
Proof. vm_compute. repeat split; reflexivity. Qed.

(** C3: the bold branch is never taken.  With a tolerance that is not
    negative (it is 0.5), a line whose size exceeds a subsection size that
    is set is taken by the subsection-size rule if not by the section-size
    rule before it; with the subsection size unset the bold condition
    compares the size of the line with itself.  So a line that neither size
    rule takes has a bold condition that is false, no line is classified
    by the bold heuristic, and the branch taken does not depend on
    boldness. *)
Theorem bold_branch_unreachable (ss sub : option Z) (tol : Z)
    (line_text : string) (max_size : Z) (is_bold : bool) :
  0 <= tol ->
  (forall v, sub = Some v -> v <> 0 -> max_size > v ->
             size_rule sub max_size tol = true)
  /\ (truthy sub = false ->
      bold_rule is_bold line_text max_size ss sub
      = is_bold && (len line_text <? 120) && (max_size >? max_size))
  /\ (size_rule ss max_size tol = false ->
      size_rule sub max_size tol = false ->
      bold_rule is_bold line_text max_size ss sub = false)
  /\ classify ss sub tol line_text max_size is_bold <> BoldShort
  /\ classify ss sub tol line_text max_size is_bold
     = classify ss sub tol line_text max_size false.
Proof.
  intros Htol. split; [|split; [|split; [|split]]].
  - intros v -> Hv Hgt. apply size_rule_true. exists v.
    split; [reflexivity|]. split; [assumption | lia].
  - intros Ht. unfold bold_rule. now rewrite Ht.
  - intros _ Hsub. now apply bold_rule_dead with (tol := tol).
  - unfold classify.
    destruct (size_rule ss max_size tol); [discriminate|].
    destruct (size_rule sub max_size tol) eqn:Hsub; [discriminate|].
    destruct (is_numbered_heading line_text); [discriminate|].
    rewrite (bold_rule_dead ss sub tol) by assumption. discriminate.
  - unfold classify.
    destruct (size_rule ss max_size tol); [reflexivity|].
    destruct (size_rule sub max_size tol) eqn:Hsub; [reflexivity|].
    destruct (is_numbered_heading line_text); [reflexivity|].
    now rewrite !(bold_rule_dead ss sub tol) by assumption.
Qed.

Lemma bold_branch_unreachable_witness :
  0 <= default_tol
  /\ classify (Some 180) (Some 140) default_tol "Summary" 110 true
     <> BoldShort.
Proof.
  split; [unfold default_tol; lia|].
  apply (bold_branch_unreachable (Some 180) (Some 140) default_tol
           "Summary" 110 true).
  unfold default_tol. lia.
Defined.

(** ** The classifier without thresholds *)

(** C2: with both thresholds unset, as in a document without text spans
    and as the defaults of the function have them, the bold-short
    heuristic is said to still classify a line as a heading.  In the code
    the bold condition then compares the size of the line with itself and
    is false: a bold line of 17 characters that does not match the
    numbering pattern is buffered as body text and comes out as a
    paragraph, and no line at all takes the bold branch. *)
Theorem bold_line_without_thresholds_is_body :
  section_size_of (gather_font_sizes [scanned_page]) = None
  /\ subsection_size_of (gather_font_sizes [scanned_page]) = None
  /\ is_bold_of [ {| text := "Executive Summary"; size := 120;
                     font := "Helvetica-Bold" |} ] = true
  /\ len "Executive Summary" < 120
  /\ is_numbered_heading "Executive Summary" = None
  /\ bold_rule true "Executive Summary" 120 None None = false
  /\ classify None None default_tol "Executive Summary" 120 true = Body
  /\ extract_paragraphs_and_headings_from_page bold_line_page
       None None default_tol
     = [ Paragraph None None "Executive Summary" ]
  /\ ~ (exists line_text max_size is_bold,
          classify None None default_tol line_text max_size is_bold
          = BoldShort).
Proof.
  do 8 (split; [reflexivity|]).
  intros (line_text & max_size & is_bold & H).
  rewrite classify_unset in H.
  destruct (is_numbered_heading line_text); discriminate.
Qed.

(** ** Image blocks *)

Lemma flush_paragraph_context (st : builder) :
  current_section (flush_paragraph st) = current_section st
  /\ current_sub (flush_paragraph st) = current_sub st
  /\ paragraph_buffer (flush_paragraph st) = [].
Proof.
  unfold flush_paragraph.
  destruct (paragraph_buffer st) eqn:E; simpl; auto.
Qed.

(** C10, as stated, fails on the description: the chart of an image
    block does not carry the string "image block detected". *)
Lemma image_block_description_differs :
  extract_paragraphs_and_headings_from_page scanned_page
    None None default_tol
  = [ Chart None "image block detected (image data handled separately)"
        None ]
  /\ extract_paragraphs_and_headings_from_page scanned_page
       None None default_tol
     <> [ Chart None "image block detected" None ].
Proof. split; [reflexivity | discriminate]. Qed.

(** C10, amended: at an image block the builder flushes the paragraph
    buffer and then emits exactly one chart item, with the current section,
    the description "image block detected (image data handled separately)"
    and no chart data; the section and subsection stay as they were. *)
Theorem image_block_flush_then_chart (ss sub : option Z) (tol : Z)
    (st : builder) (b : block) :
  btype b = 1 ->
  let st' := step_block ss sub tol st b in
  out st'
  = out (flush_paragraph st)
    ++ [ Chart (current_section st)
           "image block detected (image data handled separately)" None ]
  /\ current_section st' = current_section st
  /\ current_sub st' = current_sub st
  /\ paragraph_buffer st' = [].
Proof.
  intros Hb. unfold step_block. rewrite Hb. simpl.
  destruct (flush_paragraph_context st) as (Hs & Hu & Hp).
  unfold emit. simpl. rewrite Hs. auto.
Qed.

Lemma image_block_flush_then_chart_witness :
  btype {| btype := 1; lines := [] |} = 1
  /\ out (step_block None None default_tol
            {| current_section := Some "Results"; current_sub := None;
               out := [Heading 1 "Results"];
               paragraph_buffer := ["Sales rose."] |}
            {| btype := 1; lines := [] |})
     = [ Heading 1 "Results";
         Paragraph (Some "Results") None "Sales rose.";
         Chart (Some "Results")
           "image block detected (image data handled separately)" None ].
Proof.
  split; [reflexivity|].
  apply (image_block_flush_then_chart None None default_tol
           {| current_section := Some "Results"; current_sub := None;
              out := [Heading 1 "Results"];
              paragraph_buffer := ["Sales rose."] |}
           {| btype := 1; lines := [] |} eq_refl).
Defined.

(** ** Page assembly *)

Section AssemblyFacts.

Variable pil_image : Type.
Variable read_pdf : Z -> flavor -> exc (list grid).
Variable extract_image : Z -> exc pil_image.
Variable image_to_string : pil_image -> exc string.
Variable convert_from_path : Z -> exc (list pil_image).

Local Abbreviation extract_tables' := (extract_tables read_pdf).
Local Abbreviation image_item' :=
  (image_item pil_image extract_image image_to_string).
Local Abbreviation extract_images_and_ocr' :=
  (extract_images_and_ocr pil_image extract_image image_to_string).
Local Abbreviation ocr_page_image' :=
  (ocr_page_image pil_image image_to_string convert_from_path).
Local Abbreviation ocr_items' :=
  (ocr_items pil_image image_to_string convert_from_path).
Local Abbreviation page_content' :=
  (page_content pil_image read_pdf extract_image image_to_string
     convert_from_path).
Local Abbreviation pages_loop' :=
  (pages_loop pil_image read_pdf extract_image image_to_string
     convert_from_path).
Local Abbreviation parse_pdf' :=
  (parse_pdf pil_image read_pdf extract_image image_to_string
     convert_from_path).

Lemma image_item_is_chart (enable_ocr : bool) (xref : Z) :
  is_chart_without_section (image_item' enable_ocr xref).
Proof.
  unfold image_item, is_chart_without_section.
  destruct (extract_image xref); simpl; eexists; reflexivity.
Qed.

Lemma extract_images_and_ocr_charts (pg : page) (enable_ocr : bool) :
  Forall is_chart_without_section (extract_images_and_ocr' pg enable_ocr)
  /\ List.length (extract_images_and_ocr' pg enable_ocr)
     = List.length (images pg).
Proof.
  unfold extract_images_and_ocr. split.
  - apply Forall_forall. intros it Hin. apply in_map_iff in Hin.
    destruct Hin as (x & <- & _). apply image_item_is_chart.
  - apply length_map.
Qed.

(** The three ways [extract_tables] can end. *)
Lemma extract_tables_cases (page_no : Z) (f : flavor) :
  (exists g gs, read_pdf page_no f = Val (g :: gs)
                /\ extract_tables' page_no f = map table_item (g :: gs))
  \/ (exists gs, read_pdf page_no f = Val []
                 /\ read_pdf page_no (other_flavor f) = Val gs
                 /\ extract_tables' page_no f = map table_item gs)
  \/ ((read_pdf page_no f = Raise
       \/ (read_pdf page_no f = Val []
           /\ read_pdf page_no (other_flavor f) = Raise))
      /\ extract_tables' page_no f = []).
Proof.
  unfold extract_tables.
  destruct (read_pdf page_no f) as [[|g gs]|] eqn:E1; simpl.
  - destruct (read_pdf page_no (other_flavor f)) as [gs|] eqn:E2; simpl.
    + right. left. exists gs. auto.
    + right. right. auto.
  - left. exists g, gs. auto.
  - right. right. auto.
Qed.

Lemma extract_tables_tables (page_no : Z) (f : flavor) :
  Forall is_table_without_section (extract_tables' page_no f).
Proof.
  assert (H : forall gs, Forall is_table_without_section
                           (map table_item gs)).
  { intros gs. apply Forall_forall. intros it Hin.
    apply in_map_iff in Hin. destruct Hin as (g & <- & _).
    exists g. reflexivity. }
  destruct (extract_tables_cases page_no f)
    as [(g & gs & _ & ->) | [(gs & _ & _ & ->) | (_ & ->)]];
    auto.
Qed.

Lemma pages_loop_numbers (ss sub : option Z) (enable_ocr : bool)
    (pages : list page) :
  forall (i : Z) (result : list page_result),
    map page_number (pages_loop' ss sub enable_ocr pages i result)
    = map page_number result
      ++ map (fun k => i + Z.of_nat k) (seq 1 (List.length pages)).
Proof.
  induction pages as [|pg rest IH]; intros i result; simpl.
  - now rewrite app_nil_r.
  - rewrite IH, map_app, <- app_assoc. simpl. f_equal. f_equal.
    rewrite <- (seq_shift (List.length rest) 1), map_map.
    apply map_ext. intros k. lia.
Qed.

Lemma pages_loop_contents (ss sub : option Z) (enable_ocr : bool)
    (pages : list page) :
  forall (i : Z) (done : list page) (result : list page_result),
    Forall2 (fun pg r =>
               content r
               = page_content' ss sub enable_ocr (page_number r) pg)
      done result ->
    Forall2 (fun pg r =>
               content r
               = page_content' ss sub enable_ocr (page_number r) pg)
      (done ++ pages) (pages_loop' ss sub enable_ocr pages i result).
Proof.
  induction pages as [|pg rest IH]; intros i done result H; simpl.
  - now rewrite app_nil_r.
  - replace (done ++ pg :: rest) with ((done ++ [pg]) ++ rest)
      by (now rewrite <- app_assoc).
    apply IH. apply Forall2_app; [assumption|].
    constructor; [reflexivity | constructor].
Qed.

(** C8: for a document of N pages that opens, [parse_pdf] returns a page
    list whose page numbers are exactly 1, 2, ..., N in this order, with
    one page result per source page, holding the content of that page. *)
Theorem page_numbers_contiguous (doc : document) (enable_ocr : bool) :
  exists r,
    parse_pdf' (Val doc) enable_ocr = Val r
    /\ map page_number r = map Z.of_nat (seq 1 (List.length doc))
    /\ Forall2 (fun pg pr =>
                  content pr
                  = page_content' (section_size_of (gather_font_sizes doc))
                      (subsection_size_of (gather_font_sizes doc))
                      enable_ocr (page_number pr) pg)
         doc r.
Proof.
  eexists. split; [reflexivity|]. split.
  - rewrite pages_loop_numbers. simpl. apply map_ext. intros k. lia.
  - apply (pages_loop_contents _ _ _ doc 0 [] []). constructor.
Qed.

Lemma pages_loop_length (ss sub : option Z) (enable_ocr : bool)
    (pages : list page) (i : Z) (result : list page_result) :
  List.length (pages_loop' ss sub enable_ocr pages i result)
  = (List.length result + List.length pages)%nat.
Proof.
  rewrite <- (length_map page_number), pages_loop_numbers.
  now rewrite length_app, !length_map, length_seq.
Qed.

Lemma ocr_items_cases (enable_ocr : bool) (n : Z) :
  (ocr_items' enable_ocr n = []
   /\ (enable_ocr = false \/ strip (ocr_page_image' n) = ""))
  \/ (enable_ocr = true
      /\ ocr_page_image' n <> ""
      /\ strip (ocr_page_image' n) <> ""
      /\ ocr_items' enable_ocr n
         = [Paragraph None None (clean_line (ocr_page_image' n))]).
Proof.
  unfold ocr_items. destruct enable_ocr; [|left; auto].
  destruct (ocr_page_image' n) as [|c s] eqn:E; simpl.
  - left. auto.
  - destruct (strip (String c s)) eqn:Es; simpl.
    + left. auto.
    + right. repeat split; discriminate || reflexivity.
Qed.

(** C5: on a page without extractable text the content is the OCR
    paragraph, if any, followed by one chart per image.  The paragraph has
    no section and no subsection and is there only when OCR is enabled and
    gave text that is not blank; the charts have no section; no heading,
    table or text-derived paragraph appears, since the blocks, the
    thresholds and the table extractor play no part. *)
Theorem page_without_text_content (ss sub : option Z) (enable_ocr : bool)
    (n : Z) (pg : page) :
  no_extractable_text pg = true ->
  exists ocr_part charts,
    page_content' ss sub enable_ocr n pg = ocr_part ++ charts
    /\ ((ocr_part = []
         /\ (enable_ocr = false \/ strip (ocr_page_image' n) = ""))
        \/ (enable_ocr = true
            /\ ocr_page_image' n <> ""
            /\ strip (ocr_page_image' n) <> ""
            /\ ocr_part
               = [Paragraph None None (clean_line (ocr_page_image' n))]))
    /\ charts = map (image_item' enable_ocr) (images pg)
    /\ Forall is_chart_without_section charts
    /\ List.length charts = List.length (images pg)
    /\ (forall read_pdf2 ss2 sub2 blocks2,
          page_content' ss sub enable_ocr n pg
          = page_content pil_image read_pdf2 extract_image image_to_string
              convert_from_path ss2 sub2 enable_ocr n
              {| blocks := blocks2; raw_text := raw_text pg;
                 images := images pg |}).
Proof.
  intros H.
  exists (ocr_items' enable_ocr n), (extract_images_and_ocr' pg enable_ocr).
  unfold page_content. rewrite H.
  split; [reflexivity|]. split; [apply ocr_items_cases|].
  split; [reflexivity|].
  split; [apply extract_images_and_ocr_charts|].
  split; [apply extract_images_and_ocr_charts|].
  intros read_pdf2 ss2 sub2 blocks2.
  unfold no_extractable_text in *. simpl. rewrite H. reflexivity.
Qed.

(** C6: on a page with extractable text the content is the text-derived
    sequence, then the table items in the order the extractor gave them,
    then the image items; every table item and every image item has no
    section. *)
Theorem page_with_text_content (ss sub : option Z) (enable_ocr : bool)
    (n : Z) (pg : page) :
  no_extractable_text pg = false ->
  exists tables charts,
    page_content' ss sub enable_ocr n pg
    = extract_paragraphs_and_headings_from_page pg ss sub default_tol
      ++ tables ++ charts
    /\ tables = extract_tables' n Stream
    /\ Forall is_table_without_section tables
    /\ ((exists g gs, read_pdf n Stream = Val (g :: gs)
                      /\ tables = map table_item (g :: gs))
        \/ (exists gs, read_pdf n Stream = Val []
                       /\ read_pdf n Lattice = Val gs
                       /\ tables = map table_item gs)
        \/ ((read_pdf n Stream = Raise
             \/ (read_pdf n Stream = Val []
                 /\ read_pdf n Lattice = Raise))
            /\ tables = []))
    /\ charts = map (image_item' enable_ocr) (images pg)
    /\ Forall is_chart_without_section charts
    /\ List.length charts = List.length (images pg).
Proof.
  intros H.
  exists (extract_tables' n Stream), (extract_images_and_ocr' pg enable_ocr).
  unfold page_content. rewrite H.
  split; [reflexivity|]. split; [reflexivity|].
  split; [apply extract_tables_tables|].
  split; [apply (extract_tables_cases n Stream)|].
  split; [reflexivity|].
  split; apply extract_images_and_ocr_charts.
Qed.

(** C9: a collaborator that raises is caught where it is called.  A table
    extraction that raises gives no table; an image that cannot be decoded
    gives the chart "image detected (failed to extract)"; an OCR that
    raises on an image gives the chart "image detected"; a page OCR that
    raises gives no OCR paragraph.  The other items of the page stay as
    they are, and [parse_pdf] returns its result for every page. *)
Theorem collaborator_failures_are_absorbed :
  (forall n f, read_pdf n f = Raise -> extract_tables' n f = [])
  /\ (forall enable_ocr x,
        extract_image x = Raise ->
        image_item' enable_ocr x
        = Chart None "image detected (failed to extract)" None)
  /\ (forall x im,
        extract_image x = Val im -> image_to_string im = Raise ->
        image_item' true x = Chart None "image detected" None)
  /\ (forall n,
        (convert_from_path n = Raise
         \/ exists im rest, convert_from_path n = Val (im :: rest)
                            /\ image_to_string im = Raise) ->
        ocr_page_image' n = "" /\ ocr_items' true n = [])
  /\ (forall ss sub enable_ocr n pg,
        no_extractable_text pg = false -> read_pdf n Stream = Raise ->
        page_content' ss sub enable_ocr n pg
        = extract_paragraphs_and_headings_from_page pg ss sub default_tol
          ++ extract_images_and_ocr' pg enable_ocr)
  /\ (forall pg enable_ocr before x after,
        images pg = before ++ x :: after -> extract_image x = Raise ->
        extract_images_and_ocr' pg enable_ocr
        = map (image_item' enable_ocr) before
          ++ Chart None "image detected (failed to extract)" None
             :: map (image_item' enable_ocr) after)
  /\ (forall ss sub n pg,
        no_extractable_text pg = true ->
        (convert_from_path n = Raise
         \/ exists im rest, convert_from_path n = Val (im :: rest)
                            /\ image_to_string im = Raise) ->
        page_content' ss sub true n pg = extract_images_and_ocr' pg true)
  /\ (forall doc enable_ocr,
        exists r, parse_pdf' (Val doc) enable_ocr = Val r
                  /\ List.length r = List.length doc).
Proof.
  assert (Himg : forall enable_ocr x,
             extract_image x = Raise ->
             image_item' enable_ocr x
             = Chart None "image detected (failed to extract)" None).
  { intros enable_ocr x H. unfold image_item. now rewrite H. }
  assert (Hocr : forall n,
             (convert_from_path n = Raise
              \/ exists im rest, convert_from_path n = Val (im :: rest)
                                 /\ image_to_string im = Raise) ->
             ocr_page_image' n = "" /\ ocr_items' true n = []).
  { intros n H.
    assert (E : ocr_page_image' n = "").
    { unfold ocr_page_image.
      destruct H as [H | (im & rest & H & Him)]; rewrite H; simpl;
        [reflexivity | now rewrite Him]. }
    split; [exact E|]. unfold ocr_items. now rewrite E. }
  split; [intros n f H; unfold extract_tables; now rewrite H|].
  split; [exact Himg|].
  split.
  { intros x im H1 H2. unfold image_item. rewrite H1. simpl.
    now rewrite H2. }
  split; [exact Hocr|].
  split.
  { intros ss sub enable_ocr n pg Ht Hr. unfold page_content.
    rewrite Ht. unfold extract_tables. rewrite Hr. reflexivity. }
  split.
  { intros pg enable_ocr before x after Hi Hx.
    unfold extract_images_and_ocr. rewrite Hi, map_app. simpl.
    now rewrite (Himg enable_ocr x Hx). }
  split.
  { intros ss sub n pg Ht H. unfold page_content. rewrite Ht.
    destruct (Hocr n H) as (_ & ->). reflexivity. }
  intros doc enable_ocr. eexists. split; [reflexivity|].
  now rewrite pages_loop_length.
Qed.

End AssemblyFacts.

(** ** The assembly on concrete collaborators *)

Example scanned_page_with_ocr :
  page_content unit read_pdf_one_table decode_ok ocr_reads_q3 render_ok
    None None true 1 scanned_page
  = [ Paragraph None None "Q3 revenue up 12%";
      Chart None "Q3 revenue up 12%" None ].
Proof. reflexivity. Qed.

Example scanned_page_without_ocr :
  page_content unit read_pdf_one_table decode_ok ocr_reads_q3 render_ok
    None None false 1 scanned_page
  = [ Chart None "image detected" None ].
Proof. reflexivity. Qed.

Example report_page_assembled :
  page_content unit read_pdf_one_table decode_ok ocr_reads_q3 render_ok
    (Some 180) (Some 140) false 1
    {| blocks := blocks report_page; raw_text := raw_text report_page;
       images := [4] |}
  = [ Heading 1 "Revenue Growth";
      Heading 2 "Highlights";
      Paragraph (Some "Revenue Growth") (Some "Highlights")
        "Revenue grew in every region.";
      Table None None [["Region"; "Revenue"]; ["North"; "12"]];
      Chart None "image detected" None ].
Proof. reflexivity. Qed.

Example all_collaborators_fail :
  parse_pdf unit read_pdf_fails decode_fails ocr_fails render_fails
    (Val [report_page; scanned_page]) true
  = Val [ {| page_number := 1;
             content :=
               [ Heading 1 "Revenue Growth";
                 Heading 2 "Highlights";
                 Paragraph (Some "Revenue Growth") (Some "Highlights")
                   "Revenue grew in every region." ] |};
          {| page_number := 2;
             content :=
               [ Chart None "image detected (failed to extract)" None ] |} ].
Proof. reflexivity. Qed.

Lemma page_without_text_content_witness :
  no_extractable_text scanned_page = true
  /\ exists ocr_part charts,
       page_content unit read_pdf_one_table decode_ok ocr_reads_q3
         render_ok None None true 1 scanned_page
       = ocr_part ++ charts
       /\ List.length charts = 1%nat.
Proof.
  split; [reflexivity|].
  destruct (page_without_text_content unit read_pdf_one_table decode_ok
              ocr_reads_q3 render_ok None None true 1 scanned_page eq_refl)
    as (o & ch & H1 & _ & _ & _ & H5 & _).
  exists o, ch. split; assumption.
Defined.

Lemma page_with_text_content_witness :
  no_extractable_text report_page = false
  /\ exists tables charts,
       page_content unit read_pdf_one_table decode_ok ocr_reads_q3
         render_ok (Some 180) (Some 140) false 1 report_page
       = extract_paragraphs_and_headings_from_page report_page
           (Some 180) (Some 140) default_tol
         ++ tables ++ charts
       /\ Forall is_table_without_section tables.
Proof.
  split; [reflexivity|].
  destruct (page_with_text_content unit read_pdf_one_table decode_ok
              ocr_reads_q3 render_ok (Some 180) (Some 140) false 1
              report_page eq_refl)
    as (t & ch & H1 & _ & H3 & _).
  exists t, ch. split; assumption.
Defined.

Lemma collaborator_failures_are_absorbed_witness :
  read_pdf_fails 1 Stream = Raise
  /\ decode_fails 7 = Raise
  /\ extract_tables read_pdf_fails 1 Stream = []
  /\ image_item unit decode_fails ocr_fails true 7
     = Chart None "image detected (failed to extract)" None.
Proof.
  split; [reflexivity|]. split; [reflexivity|].
  destruct (collaborator_failures_are_absorbed unit read_pdf_fails
              decode_fails ocr_fails render_fails)
    as (Ht & Hi & _).
  split; [apply Ht | apply Hi]; reflexivity.
Defined.

(** ** The font profile *)

Lemma insert_desc_In (x y : Z) (l : list Z) :
  In y (insert_desc x l) <-> y = x \/ In y l.
Proof.
  induction l as [|z l IH]; simpl.
  - intuition.
  - destruct (z <? x); simpl; [intuition|]. rewrite IH. intuition.
Qed.

Lemma sorted_desc_In (y : Z) (l : list Z) :
  In y (sorted_desc l) <-> In y l.
Proof.
  induction l as [|x l IH]; simpl; [reflexivity|].
  rewrite insert_desc_In, IH. intuition.
Qed.

Lemma insert_desc_sorted (x : Z) (l : list Z) :
  StronglySorted Z.gt l -> ~ In x l ->
  StronglySorted Z.gt (insert_desc x l).
Proof.
  induction l as [|z l IH]; intros Hs Hn; simpl.
  - constructor; constructor.
  - inversion Hs as [|? ? Hs' Hz]; subst.
    destruct (z <? x) eqn:E.
    + apply Z.ltb_lt in E. constructor; [assumption|].
      constructor; [lia|].
      eapply Forall_impl; [|exact Hz]. intros w Hw. simpl in Hw. lia.
    + apply Z.ltb_ge in E.
      assert (z <> x) by (intros ->; apply Hn; now left).
      constructor.
      * apply IH; [assumption|]. intros Hin. apply Hn. now right.
      * apply Forall_forall. intros w Hw. apply insert_desc_In in Hw.
        destruct Hw as [-> | Hw]; [lia|].
        rewrite Forall_forall in Hz. now apply Hz.
Qed.

Lemma sorted_desc_sorted (l : list Z) :
  NoDup l -> StronglySorted Z.gt (sorted_desc l).
Proof.
  induction 1 as [|x l Hn Hd IH]; simpl; [constructor|].
  apply insert_desc_sorted; [assumption|].
  now rewrite sorted_desc_In.
Qed.

Lemma strictly_descending_NoDup (l : list Z) :
  StronglySorted Z.gt l -> NoDup l.
Proof.
  induction 1 as [|x l Hs IH Hx]; constructor; [|assumption].
  intros Hin. rewrite Forall_forall in Hx. specialize (Hx x Hin). lia.
Qed.

Lemma gather_font_sizes_In (doc : document) (x : Z) :
  In x (gather_font_sizes doc) <-> In x (collected_sizes doc).
Proof.
  unfold gather_font_sizes, py_set. now rewrite sorted_desc_In, nodup_In.
Qed.

Lemma gather_font_sizes_sorted (doc : document) :
  StronglySorted Z.gt (gather_font_sizes doc).
Proof. apply sorted_desc_sorted, NoDup_nodup. Qed.

(** The sizes collected are those of the spans of the lines of the text
    blocks of the pages. *)
Lemma collected_sizes_spans (doc : document) (x : Z) :
  In x (collected_sizes doc) <->
  exists pg b ln sp,
    In pg doc /\ In b (blocks pg) /\ btype b = 0
    /\ In ln (lines b) /\ In sp (spans ln) /\ size sp = x.
Proof.
  unfold collected_sizes, page_sizes, block_sizes, line_sizes. split.
  - intros H. apply in_flat_map in H. destruct H as (pg & Hpg & H).
    apply in_flat_map in H. destruct H as (b & Hb & H).
    destruct (btype b =? 0) eqn:E; [|contradiction].
    apply Z.eqb_eq in E.
    apply in_flat_map in H. destruct H as (ln & Hln & H).
    apply in_map_iff in H. destruct H as (sp & Hx & Hsp).
    exists pg, b, ln, sp. auto 10.
  - intros (pg & b & ln & sp & Hpg & Hb & Ht & Hln & Hsp & Hx).
    apply in_flat_map. exists pg. split; [assumption|].
    apply in_flat_map. exists b. split; [assumption|].
    rewrite Ht. simpl.
    apply in_flat_map. exists ln. split; [assumption|].
    apply in_map_iff. exists sp. auto.
Qed.

(** C7: the size list of the font profile is strictly descending, hence
    without duplicates, and holds exactly the sizes observed on the spans
    of the document.  With two distinct observed sizes the section size and
    the subsection size are both set, both observed, and the section size
    is strictly the larger, no observed size being above it; with fewer
    than two distinct sizes the subsection size is unset, and without any
    span the section size is unset. *)
Theorem font_profile_thresholds (doc : document) :
  let sizes := gather_font_sizes doc in
  StronglySorted Z.gt sizes
  /\ NoDup sizes
  /\ (forall x, In x sizes <-> observed doc x)
  /\ ((exists a b, observed doc a /\ observed doc b /\ a <> b) ->
      exists s0 s1,
        section_size_of sizes = Some s0
        /\ subsection_size_of sizes = Some s1
        /\ s0 > s1
        /\ observed doc s0 /\ observed doc s1
        /\ (forall x, observed doc x -> x <= s0)
        /\ (forall x, observed doc x -> x <> s0 -> x <= s1))
  /\ ((forall a b, observed doc a -> observed doc b -> a = b) ->
      subsection_size_of sizes = None)
  /\ ((forall x, ~ observed doc x) -> section_size_of sizes = None).
Proof.
  intros sizes.
  assert (Hs : StronglySorted Z.gt sizes) by apply gather_font_sizes_sorted.
  assert (Hin : forall x, In x sizes <-> observed doc x).
  { intros x. unfold sizes, observed.
    now rewrite gather_font_sizes_In, collected_sizes_spans. }
  split; [exact Hs|]. split; [now apply strictly_descending_NoDup|].
  split; [exact Hin|]. split; [|split].
  - intros (a & b & Ha & Hb & Hab).
    apply Hin in Ha. apply Hin in Hb.
    destruct sizes as [|s0 [|s1 rest]].
    + contradiction.
    + simpl in Ha, Hb. exfalso. apply Hab.
      destruct Ha as [<- | []]. destruct Hb as [<- | []]. reflexivity.
    + exists s0, s1. inversion Hs as [|? ? Hs' H0]; subst.
      inversion Hs' as [|? ? Hs'' H1]; subst.
      rewrite Forall_forall in H0, H1.
      assert (s0 > s1) by (apply H0; now left).
      split; [reflexivity|]. split; [reflexivity|]. split; [assumption|].
      split; [apply Hin; now left|].
      split; [apply Hin; right; now left|]. split.
      * intros x Hx. apply Hin in Hx. destruct Hx as [<- | Hx]; [lia|].
        specialize (H0 x Hx). lia.
      * intros x Hx Hne. apply Hin in Hx.
        destruct Hx as [<- | [<- | Hx]]; [congruence | lia |].
        specialize (H1 x Hx). lia.
  - intros Hall. destruct sizes as [|s0 [|s1 rest]]; try reflexivity.
    exfalso.
    assert (s0 = s1).
    { apply Hall; apply Hin; [now left | right; now left]. }
    inversion Hs as [|? ? _ H0]; subst.
    rewrite Forall_forall in H0. specialize (H0 s1 (or_introl eq_refl)).
    lia.
  - intros Hnone. destruct sizes as [|s0 rest]; [reflexivity|].
    exfalso. apply (Hnone s0), Hin. now left.
Qed.

Lemma font_profile_thresholds_witness :
  (exists a b, observed [report_page] a /\ observed [report_page] b
               /\ a <> b)
  /\ exists s0 s1,
       section_size_of (gather_font_sizes [report_page]) = Some s0
       /\ subsection_size_of (gather_font_sizes [report_page]) = Some s1
       /\ s0 > s1.
Proof.
  assert (H : exists a b, observed [report_page] a
                          /\ observed [report_page] b /\ a <> b).
  { exists 180, 140. split; [|split; [|discriminate]].
    - exists report_page.
      eexists. eexists. eexists.
      split; [now left|]. split; [now left|]. split; [reflexivity|].
      split; [now left|]. split; [now left|]. reflexivity.
    - exists report_page.
      eexists. eexists. eexists.
      split; [now left|]. split; [now left|]. split; [reflexivity|].
      split; [right; now left|]. split; [now left|]. reflexivity. }
  split; [exact H|].
  destruct (font_profile_thresholds [report_page])
    as (_ & _ & _ & Htwo & _).
  destruct (Htwo H) as (s0 & s1 & H0 & H1 & Hgt & _).
  exists s0, s1. auto.
Defined.

(** ** Whitespace normalisation *)

Module StrFacts.

Lemma split_words (s : string) : Forall word (split s).
Proof.
  induction s as [|c s IH]; simpl; [constructor|].
  destruct (isspace c) eqn:Ec; [assumption|].
  assert (Hc : word (String c "")).
  { split; [discriminate|]. simpl. now rewrite Ec. }
  destruct s as [|d s']; [now constructor|].
  destruct (isspace d) eqn:Ed; [now constructor|].
  destruct (split (String d s')) as [|w ws]; [now constructor|].
  inversion IH as [|? ? (Hw & Hn) Hws]; subst.
  constructor; [|assumption].
  split; [discriminate|]. simpl. now rewrite Ec, Hn.
Qed.

(** [split] on a string of two characters or more. *)
Lemma split_cons2 (c d : ascii) (s : string) :
  split (String c (String d s))
  = if isspace c then split (String d s)
    else if isspace d then String c "" :: split (String d s)
         else match split (String d s) with
              | w :: ws => String c w :: ws
              | [] => [String c ""]
              end.
Proof. reflexivity. Qed.

Lemma nospace_cons (c : ascii) (w : string) :
  nospace (String c w) = true -> isspace c = false /\ nospace w = true.
Proof.
  simpl. intros H. apply andb_true_iff in H. destruct H as (Hc & Hw).
  apply negb_true_iff in Hc. auto.
Qed.

Lemma split_one_word (w : string) :
  forall c, nospace (String c w) = true -> split (String c w) = [String c w].
Proof.
  induction w as [|d w IH]; intros c H;
    apply nospace_cons in H; destruct H as (Hc & Hw).
  - simpl. now rewrite Hc.
  - specialize (IH d Hw). apply nospace_cons in Hw.
    destruct Hw as (Hd & _).
    now rewrite split_cons2, Hc, Hd, IH.
Qed.

Lemma split_word_then_space (w t : string) :
  forall c, nospace (String c w) = true ->
            split (String c w ++ String space t)%string
            = String c w :: split t.
Proof.
  induction w as [|d w IH]; intros c H;
    apply nospace_cons in H; destruct H as (Hc & Hw).
  - simpl. now rewrite Hc.
  - specialize (IH d Hw). apply nospace_cons in Hw.
    destruct Hw as (Hd & _). cbn [append] in *.
    now rewrite split_cons2, Hc, Hd, IH.
Qed.

Lemma join_cons2 (sep x y : string) (l : list string) :
  join sep (x :: y :: l) = (x ++ sep ++ join sep (y :: l))%string.
Proof. reflexivity. Qed.

Lemma split_join (ws : list string) :
  Forall word ws -> split (join " " ws) = ws.
Proof.
  induction 1 as [|w ws (Hne & Hn) Hws IH]; [reflexivity|].
  destruct w as [|c w]; [contradiction|].
  destruct ws as [|w2 ws].
  - now apply split_one_word.
  - rewrite join_cons2.
    change (" " ++ join " " (w2 :: ws))%string
      with (String space (join " " (w2 :: ws))).
    rewrite split_word_then_space by assumption. now rewrite IH.
Qed.

Lemma isspace_replace (c : ascii) :
  isspace (if Ascii.eqb c nbsp then space else c) = isspace c.
Proof.
  destruct (Ascii.eqb c nbsp) eqn:E; [|reflexivity].
  apply Ascii.eqb_eq in E. now subst.
Qed.

Lemma replace_nospace (c : ascii) :
  isspace c = false -> (if Ascii.eqb c nbsp then space else c) = c.
Proof.
  intros H. destruct (Ascii.eqb c nbsp) eqn:E; [|reflexivity].
  apply Ascii.eqb_eq in E. subst. discriminate.
Qed.

Lemma split_replace (s : string) :
  split (replace nbsp space s) = split s.
Proof.
  induction s as [|c s IH]; [reflexivity|].
  cbn [replace]. destruct (isspace c) eqn:Ec.
  - simpl. now rewrite isspace_replace, Ec.
  - rewrite (replace_nospace c Ec).
    destruct s as [|d s']; [reflexivity|].
    cbn [replace] in *.
    now rewrite !split_cons2, isspace_replace, IH.
Qed.

Lemma single_spaced_word (w : string) :
  nospace w = true -> single_spaced w = true.
Proof.
  induction w as [|c w IH]; simpl; [reflexivity|].
  intros H. apply andb_true_iff in H. destruct H as (Hc & Hw).
  apply negb_true_iff in Hc. rewrite Hc. simpl. now apply IH.
Qed.

Lemma single_spaced_word_then_space (w t : string) :
  nospace w = true -> starts_nospace t = true -> single_spaced t = true ->
  single_spaced (w ++ String space t)%string = true.
Proof.
  intros Hw Ht Hs. induction w as [|c w IH].
  - destruct t as [|d t]; [discriminate|]. simpl in Ht.
    change (("" ++ String space (String d t))%string)
      with (String space (String d t)).
    change (single_spaced (String space (String d t)))
      with (negb (isspace d) && single_spaced (String d t)).
    now rewrite Ht, Hs.
  - simpl in Hw. apply andb_true_iff in Hw. destruct Hw as (Hc & Hw).
    apply negb_true_iff in Hc. simpl. rewrite Hc. simpl. now apply IH.
Qed.

Lemma starts_nospace_append (w t : string) :
  starts_nospace w = true -> starts_nospace (w ++ t)%string = true.
Proof. destruct w; [discriminate | trivial]. Qed.

Lemma word_starts_nospace (w : string) :
  word w -> starts_nospace w = true.
Proof.
  intros (Hne & Hn). destruct w as [|c w]; [contradiction|].
  simpl in *. apply andb_true_iff in Hn. tauto.
Qed.

Lemma join_words_shape (ws : list string) :
  Forall word ws -> ws <> [] ->
  starts_nospace (join " " ws) = true
  /\ single_spaced (join " " ws) = true.
Proof.
  induction 1 as [|w ws Hw Hws IH]; intros Hne; [contradiction|].
  destruct ws as [|w2 ws].
  - split; [now apply word_starts_nospace|].
    apply single_spaced_word, Hw.
  - rewrite join_cons2. destruct IH as (IH1 & IH2); [discriminate|].
    split.
    + now apply starts_nospace_append, word_starts_nospace.
    + change (" " ++ join " " (w2 :: ws))%string
        with (String space (join " " (w2 :: ws))).
      apply single_spaced_word_then_space; [apply Hw | assumption..].
Qed.

Lemma normalized_join (ws : list string) :
  Forall word ws -> normalized (join " " ws) = true.
Proof.
  intros H. destruct ws as [|w ws]; [reflexivity|].
  destruct (join_words_shape (w :: ws) H) as (H1 & H2); [discriminate|].
  unfold normalized. rewrite H2.
  destruct (join " " (w :: ws)); [reflexivity|].
  simpl in H1. now rewrite H1.
Qed.

Lemma blank_append (a b : string) :
  blank (a ++ b)%string = blank a && blank b.
Proof.
  induction a as [|c a IH]; simpl; [reflexivity|].
  now rewrite IH, andb_assoc.
Qed.

Lemma blank_replace (s : string) :
  blank (replace nbsp space s) = blank s.
Proof.
  induction s as [|c s IH]; simpl; [reflexivity|].
  now rewrite isspace_replace, IH.
Qed.

Lemma blank_join (l : list string) :
  Exists (fun t => blank t = false) l -> blank (join " " l) = false.
Proof.
  induction l as [|x l IH]; intros H; [inversion H|].
  destruct l as [|y l].
  - inversion H as [? ? Hx | ? ? Hl]; subst; [assumption | inversion Hl].
  - rewrite join_cons2, !blank_append.
    inversion H as [? ? Hx | ? ? Hl]; subst.
    + now rewrite Hx.
    + rewrite (IH Hl). now rewrite !andb_false_r.
Qed.

Lemma split_not_blank (s : string) :
  blank s = false -> split s <> [].
Proof.
  induction s as [|c s IH]; simpl; [discriminate|].
  destruct (isspace c); simpl; [assumption|].
  intros _. destruct s as [|d s']; [discriminate|].
  destruct (isspace d); [discriminate|].
  destruct (split (String d s')); discriminate.
Qed.

Lemma clean_line_not_empty (s : string) :
  blank s = false -> clean_line s <> "".
Proof.
  intros H. unfold clean_line.
  pose proof (split_words (replace nbsp space s)) as Hw.
  pose proof (split_not_blank (replace nbsp space s)) as Hn.
  rewrite blank_replace in Hn. specialize (Hn H).
  destruct (split (replace nbsp space s)) as [|w ws]; [contradiction|].
  inversion Hw as [|? ? Hword _]; subst.
  pose proof (word_starts_nospace w Hword) as Hs.
  destruct ws as [|w2 ws].
  - simpl. apply Hword.
  - rewrite join_cons2.
    destruct w as [|c w]; [discriminate | discriminate].
Qed.

Lemma lstrip_starts (s : string) :
  lstrip s = "" \/ starts_nospace (lstrip s) = true.
Proof.
  induction s as [|c s IH]; simpl; [now left|].
  destruct (isspace c) eqn:E; [assumption|].
  right. simpl. now rewrite E.
Qed.

Lemma rstrip_starts (s : string) :
  starts_nospace s = true -> starts_nospace (rstrip s) = true.
Proof.
  destruct s as [|c s]; [discriminate|]. simpl. intros H.
  apply negb_true_iff in H.
  destruct (rstrip s); rewrite ?H; simpl; now rewrite H.
Qed.

Lemma starts_nospace_not_blank (s : string) :
  starts_nospace s = true -> blank s = false.
Proof.
  destruct s as [|c s]; [discriminate|]. simpl. intros H.
  apply negb_true_iff in H. now rewrite H.
Qed.

(** A stripped string that is not empty holds a character that is not
    whitespace. *)
Lemma strip_not_blank (s : string) :
  is_empty (strip s) = false -> blank (strip s) = false.
Proof.
  unfold strip. intros H. apply starts_nospace_not_blank.
  destruct (lstrip_starts s) as [E | E].
  - rewrite E in H. discriminate.
  - now apply rstrip_starts.
Qed.

Lemma blank_lstrip (s : string) : blank s = true -> lstrip s = "".
Proof.
  induction s as [|c s IH]; simpl; [reflexivity|].
  intros H. apply andb_true_iff in H. destruct H as (Hc & Hs).
  rewrite Hc. now apply IH.
Qed.

(** A string whose stripped form is not empty is not blank. *)
Lemma strip_not_empty (s : string) :
  is_empty (strip s) = false -> blank s = false.
Proof.
  intros H. destruct (blank s) eqn:E; [|reflexivity].
  unfold strip in H. rewrite (blank_lstrip s E) in H. discriminate.
Qed.

Lemma clean_line_normalized (s : string) :
  normalized (clean_line s) = true /\ split (clean_line s) = split s.
Proof.
  unfold clean_line. split.
  - apply normalized_join, split_words.
  - rewrite split_join by apply split_words. apply split_replace.
Qed.

End StrFacts.

(** ** The paragraph buffer *)

Lemma flush_paragraph_ok (st : builder) :
  builder_ok st -> builder_ok (flush_paragraph st).
Proof.
  intros (Hb & Ho). unfold flush_paragraph.
  destruct (paragraph_buffer st) as [|x l] eqn:E.
  - split; [now rewrite E | assumption].
  - split; cbn [out paragraph_buffer]; [constructor|].
    apply Forall_app. split; [assumption|].
    constructor; [|constructor]. unfold paragraph_has_text.
    apply StrFacts.clean_line_not_empty, StrFacts.blank_join.
    inversion Hb; subst. now constructor.
Qed.

Lemma emit_ok (it : item) (st : builder) :
  paragraph_has_text it -> builder_ok st -> builder_ok (emit it st).
Proof.
  intros Hi (Hb & Ho). split; simpl; [assumption|].
  apply Forall_app. split; [assumption | now constructor].
Qed.

Lemma open_section_ok (t : string) (st : builder) :
  builder_ok st -> builder_ok (open_section t st).
Proof.
  intros (Hb & Ho). unfold open_section.
  apply emit_ok; [exact I | now split].
Qed.

Lemma open_subsection_ok (t : string) (st : builder) :
  builder_ok st -> builder_ok (open_subsection t st).
Proof.
  intros (Hb & Ho). unfold open_subsection.
  apply emit_ok; [exact I | now split].
Qed.

Lemma buffer_line_ok (t : string) (st : builder) :
  blank t = false -> builder_ok st -> builder_ok (buffer_line t st).
Proof.
  intros Ht (Hb & Ho). split; simpl; [|assumption].
  apply Forall_app. split; [assumption | now constructor].
Qed.

Lemma step_line_ok (ss sub : option Z) (tol : Z) (st : builder)
    (ln : line) :
  builder_ok st -> builder_ok (step_line ss sub tol st ln).
Proof.
  intros H. unfold step_line.
  destruct (spans ln) as [|sp rest]; [assumption|].
  destruct (is_empty (line_text_of (sp :: rest))) eqn:E; [assumption|].
  destruct (classify ss sub tol (line_text_of (sp :: rest))
              (max_size_of sp rest) (is_bold_of (sp :: rest)))
    as [| |ni| |].
  - now apply open_section_ok, flush_paragraph_ok.
  - now apply open_subsection_ok, flush_paragraph_ok.
  - destruct (heading_level_of ni =? 1).
    + now apply open_section_ok, flush_paragraph_ok.
    + now apply open_subsection_ok, flush_paragraph_ok.
  - now apply open_subsection_ok, flush_paragraph_ok.
  - apply buffer_line_ok; [|assumption].
    now apply StrFacts.strip_not_blank.
Qed.

Lemma fold_left_ok {A : Type} (f : builder -> A -> builder) (l : list A) :
  (forall st a, builder_ok st -> builder_ok (f st a)) ->
  forall st, builder_ok st -> builder_ok (fold_left f l st).
Proof.
  intros Hf. induction l as [|a l IH]; intros st H; simpl; auto.
Qed.

Lemma step_block_ok (ss sub : option Z) (tol : Z) (st : builder)
    (b : block) :
  builder_ok st -> builder_ok (step_block ss sub tol st b).
Proof.
  intros H. unfold step_block.
  destruct (btype b =? 0).
  - apply fold_left_ok; [|assumption]. intros. now apply step_line_ok.
  - destruct (btype b =? 1).
    + apply emit_ok; [exact I | now apply flush_paragraph_ok].
    + now apply flush_paragraph_ok.
Qed.

Lemma build_page_ok (ss sub : option Z) (tol : Z) (pg : page) :
  builder_ok (build_page ss sub tol pg).
Proof.
  unfold build_page. apply flush_paragraph_ok.
  apply fold_left_ok.
  - intros. now apply step_block_ok.
  - split; constructor.
Qed.

Lemma charts_have_text (l : list item) :
  Forall is_chart_without_section l -> Forall paragraph_has_text l.
Proof.
  apply Forall_impl. intros it (d & ->). exact I.
Qed.

Lemma tables_have_text (l : list item) :
  Forall is_table_without_section l -> Forall paragraph_has_text l.
Proof.
  apply Forall_impl. intros it (g & ->). exact I.
Qed.

Lemma page_content_ok (pil_image : Type)
    (read_pdf : Z -> flavor -> exc (list grid))
    (extract_image : Z -> exc pil_image)
    (image_to_string : pil_image -> exc string)
    (convert_from_path : Z -> exc (list pil_image))
    (ss sub : option Z) (enable_ocr : bool) (n : Z) (pg : page) :
  Forall paragraph_has_text
    (page_content pil_image read_pdf extract_image image_to_string
       convert_from_path ss sub enable_ocr n pg).
Proof.
  pose proof (charts_have_text _
                (proj1 (extract_images_and_ocr_charts pil_image
                          extract_image image_to_string pg enable_ocr)))
    as Hc.
  unfold page_content. destruct (no_extractable_text pg).
  - apply Forall_app. split; [|exact Hc].
    unfold ocr_items. destruct enable_ocr; [|constructor].
    set (t := ocr_page_image pil_image image_to_string convert_from_path n).
    destruct (is_empty t); simpl; [constructor|].
    destruct (is_empty (strip t)) eqn:E; simpl; constructor;
      [|constructor].
    simpl. now apply StrFacts.clean_line_not_empty, StrFacts.strip_not_empty.
  - apply Forall_app. split; [apply build_page_ok|].
    apply Forall_app. split; [|exact Hc].
    apply tables_have_text, extract_tables_tables.
Qed.

(** C4: flushing an empty buffer changes nothing.  Flushing a buffer that
    is not empty appends exactly one paragraph, tagged with the current
    section and subsection, whose text is [clean_line] of the buffered
    lines joined with single spaces, and empties the buffer.  That text is
    normalised: its only whitespace is single ASCII spaces between words,
    none at the ends, and its words are those of the joined lines, the
    non-breaking space counting as whitespace.  So no paragraph of a page,
    text-derived or read by OCR, has empty text, and the line
    "Net\xa0 Income   grew" is flushed as "Net Income grew". *)
Theorem flush_paragraph_emits_clean_paragraph :
  (forall st, paragraph_buffer st = [] -> flush_paragraph st = st)
  /\ (forall st,
        paragraph_buffer st <> [] ->
        out (flush_paragraph st)
        = out st
          ++ [ Paragraph (current_section st) (current_sub st)
                 (clean_line (join " " (paragraph_buffer st))) ]
        /\ paragraph_buffer (flush_paragraph st) = []
        /\ current_section (flush_paragraph st) = current_section st
        /\ current_sub (flush_paragraph st) = current_sub st)
  /\ (forall s,
        normalized (clean_line s) = true
        /\ split (clean_line s) = split s)
  /\ isspace nbsp = true
  /\ (forall pg ss sub tol s u t,
        In (Paragraph s u t)
          (extract_paragraphs_and_headings_from_page pg ss sub tol) ->
        t <> "")
  /\ (forall (pil_image : Type) read_pdf extract_image image_to_string
             convert_from_path ss sub enable_ocr n pg s u t,
        In (Paragraph s u t)
          (page_content pil_image read_pdf extract_image image_to_string
             convert_from_path ss sub enable_ocr n pg) ->
        t <> "")
  /\ extract_paragraphs_and_headings_from_page net_income_page
       None None default_tol
     = [ Paragraph None None "Net Income grew" ].
Proof.
  split; [|split; [|split; [|split; [|split; [|split]]]]].
  - intros st H. unfold flush_paragraph. now rewrite H.
  - intros st H. unfold flush_paragraph.
    destruct (paragraph_buffer st) as [|x l] eqn:E; [contradiction|].
    simpl. auto.
  - intros s. apply StrFacts.clean_line_normalized.
  - reflexivity.
  - intros pg ss sub tol s u t Hin.
    destruct (build_page_ok ss sub tol pg) as (_ & Ho).
    rewrite Forall_forall in Ho. exact (Ho _ Hin).
  - intros pil_image read_pdf extract_image image_to_string
      convert_from_path ss sub enable_ocr n pg s u t Hin.
    pose proof (page_content_ok pil_image read_pdf extract_image
                  image_to_string convert_from_path ss sub enable_ocr n pg)
      as Ho.
    rewrite Forall_forall in Ho. exact (Ho _ Hin).
  - reflexivity.
Qed.

Lemma flush_paragraph_emits_clean_paragraph_witness :
  paragraph_buffer
    {| current_section := Some "Results"; current_sub := None;
       out := []; paragraph_buffer := [net_income_text; "in 2024."] |}
  <> []
  /\ out (flush_paragraph
            {| current_section := Some "Results"; current_sub := None;
               out := [];
               paragraph_buffer := [net_income_text; "in 2024."] |})
     = [ Paragraph (Some "Results") None "Net Income grew in 2024." ].
Proof.
  split; [discriminate|].
  destruct flush_paragraph_emits_clean_paragraph as (_ & H & _).
  destruct (H {| current_section := Some "Results"; current_sub := None;
                 out := [];
                 paragraph_buffer := [net_income_text; "in 2024."] |})
    as (Hout & _); [discriminate|].
  rewrite Hout. reflexivity.
Defined.

(** * Further properties *)

(** ** [clean_line] as a normal form *)

Lemma blank_split (s : string) : blank s = true -> split s = [].
Proof.
  induction s as [|c s IH]; simpl; [reflexivity|].
  intros H. apply andb_true_iff in H. destruct H as (Hc & Hs).
  rewrite Hc. now apply IH.
Qed.

Lemma split_starts (s : string) :
  starts_nospace s = true -> exists w ws, split s = w :: ws.
Proof.
  intros H. pose proof (StrFacts.split_not_blank s
                          (StrFacts.starts_nospace_not_blank s H)) as Hn.
  destruct (split s) as [|w ws]; [contradiction | eauto].
Qed.

Lemma join_cons_char (c : ascii) (w : string) (ws : list string) :
  join " " (String c w :: ws) = String c (join " " (w :: ws)).
Proof. destruct ws; reflexivity. Qed.

Lemma clean_line_words (s : string) : clean_line s = join " " (split s).
Proof. unfold clean_line. now rewrite StrFacts.split_replace. Qed.

Lemma lstrip_starts_id (s : string) :
  starts_nospace s = true -> lstrip s = s.
Proof.
  destruct s as [|c s]; [discriminate|]. simpl. intros H.
  apply negb_true_iff in H. now rewrite H.
Qed.

(** On a single-spaced string joining the words gives the string back,
    up to one leading space. *)
Lemma join_split_single_spaced (s : string) :
  single_spaced s = true -> join " " (split s) = lstrip s.
Proof.
  induction s as [|c s IH]; [reflexivity|].
  intros H. cbn [single_spaced] in H.
  apply andb_true_iff in H. destruct H as (Hc & Hs).
  specialize (IH Hs). destruct (isspace c) eqn:Ec.
  - simpl. now rewrite Ec.
  - cbn [lstrip]. rewrite Ec.
    destruct s as [|d s']; [simpl; now rewrite Ec|].
    rewrite StrFacts.split_cons2, Ec.
    destruct (isspace d) eqn:Ed.
    + cbn [single_spaced] in Hs. rewrite Ed in Hs.
      apply andb_true_iff in Hs. destruct Hs as (Hd & Hs').
      apply andb_true_iff in Hd. destruct Hd as (Hd & He).
      apply Ascii.eqb_eq in Hd. subst d.
      assert (Hst : starts_nospace s' = true)
        by (destruct s'; [discriminate | exact He]).
      change (split (String space s')) with (split s') in *.
      change (lstrip (String space s')) with (lstrip s') in IH.
      rewrite (lstrip_starts_id s' Hst) in IH.
      destruct (split_starts s' Hst) as (w & ws & Hw).
      rewrite Hw in *. rewrite StrFacts.join_cons2, IH. reflexivity.
    + assert (Hst : starts_nospace (String d s') = true)
        by (simpl; now rewrite Ed).
      rewrite (lstrip_starts_id _ Hst) in IH.
      destruct (split_starts _ Hst) as (w & ws & Hw).
      rewrite Hw in *. now rewrite join_cons_char, IH.
Qed.

Lemma normalized_starts (s : string) :
  normalized s = true -> s = "" \/ starts_nospace s = true.
Proof.
  unfold normalized. destruct s as [|c s]; [now left|].
  intros H. apply andb_true_iff in H. right. apply H.
Qed.

Lemma normalized_single_spaced (s : string) :
  normalized s = true -> single_spaced s = true.
Proof.
  unfold normalized. intros H. apply andb_true_iff in H. apply H.
Qed.

(** X1: [clean_line] is a projection onto the normalised strings: applying
    it twice is applying it once, and the strings it leaves unchanged are
    exactly the normalised ones (single ASCII spaces between words, no
    other whitespace, nothing at the ends). *)
Theorem clean_line_fixed_points (s : string) :
  clean_line (clean_line s) = clean_line s
  /\ (clean_line s = s <-> normalized s = true).
Proof.
  assert (Hfix : forall t, normalized t = true -> clean_line t = t).
  { intros t Ht. rewrite clean_line_words.
    rewrite (join_split_single_spaced t (normalized_single_spaced t Ht)).
    destruct (normalized_starts t Ht) as [-> | Hst]; [reflexivity|].
    now apply lstrip_starts_id. }
  split.
  - apply Hfix, StrFacts.clean_line_normalized.
  - split; [|apply Hfix].
    intros H. rewrite <- H. apply StrFacts.clean_line_normalized.
Qed.

(** X2: [clean_line] gives the empty string exactly on the strings that
    hold nothing but whitespace (the empty string among them). *)
Theorem clean_line_empty_iff_blank (s : string) :
  clean_line s = "" <-> blank s = true.
Proof.
  split.
  - intros H. destruct (blank s) eqn:E; [reflexivity|].
    now destruct (StrFacts.clean_line_not_empty s E).
  - intros H. rewrite clean_line_words, (blank_split s H). reflexivity.
Qed.

Lemma length_append (a b : string) :
  String.length (a ++ b) = (String.length a + String.length b)%nat.
Proof. induction a as [|c a IH]; simpl; [reflexivity | now rewrite IH]. Qed.

(** Joining the words never gives more characters than the string has;
    a leading whitespace character is saved on top. *)
Lemma join_split_length (s : string) :
  (String.length (join " " (split s))
   + (if starts_nospace s then 0 else if is_empty s then 0 else 1)
   <= String.length s)%nat.
Proof.
  induction s as [|c s IH]; [simpl; lia|].
  cbn [starts_nospace is_empty]. destruct (isspace c) eqn:Ec.
  - cbn [split negb]. rewrite Ec. cbn [String.length]. simpl negb.
    cbv iota. simpl. lia.
  - cbn [negb]. destruct s as [|d s']; [simpl; rewrite Ec; simpl; lia|].
    rewrite StrFacts.split_cons2, Ec.
    cbn [starts_nospace is_empty] in IH.
    destruct (isspace d) eqn:Ed; cbn [negb] in IH.
    + destruct (split (String d s')) as [|w ws].
      * simpl. lia.
      * rewrite StrFacts.join_cons2, !length_append.
        cbn [String.length] in *. lia.
    + destruct (split (String d s')) as [|w ws].
      * simpl. lia.
      * rewrite join_cons_char. cbn [String.length] in *. lia.
Qed.

(** X3: [clean_line] never lengthens a string. *)
Theorem clean_line_length (s : string) : len (clean_line s) <= len s.
Proof.
  unfold len. rewrite clean_line_words.
  pose proof (join_split_length s). lia.
Qed.

Lemma split_nospace_cons (d : ascii) (s : string) :
  isspace d = false -> exists w ws, split (String d s) = w :: ws.
Proof.
  intros H. apply split_starts. simpl. now rewrite H.
Qed.

Lemma split_append_space (a b : string) :
  split (a ++ String space b) = split a ++ split b.
Proof.
  induction a as [|c a IH]; [reflexivity|].
  destruct a as [|d a'].
  - simpl. destruct (isspace c); reflexivity.
  - cbn [append] in *. rewrite !StrFacts.split_cons2, IH.
    destruct (isspace c); [reflexivity|].
    destruct (isspace d) eqn:Ed; [reflexivity|].
    destruct (split_nospace_cons d a' Ed) as (w & ws & ->). reflexivity.
Qed.

(** The words of lines joined with a space are the words of the lines. *)
Lemma split_join_lines (l : list string) :
  split (join " " l) = flat_map split l.
Proof.
  induction l as [|x l IH]; [reflexivity|].
  destruct l as [|y l].
  - simpl. now rewrite app_nil_r.
  - rewrite StrFacts.join_cons2.
    change (" " ++ join " " (y :: l))%string
      with (String space (join " " (y :: l))).
    rewrite split_append_space, IH. reflexivity.
Qed.

(** X4: the paragraph that a flush emits holds the words of the buffered
    lines, all of them and in their order: joining and cleaning neither
    drops, merges nor reorders a word. *)
Theorem flush_paragraph_keeps_words (st : builder) :
  paragraph_buffer st <> [] ->
  exists t,
    out (flush_paragraph st)
    = out st ++ [Paragraph (current_section st) (current_sub st) t]
    /\ split t = flat_map split (paragraph_buffer st).
Proof.
  intros H. exists (clean_line (join " " (paragraph_buffer st))). split.
  - unfold flush_paragraph.
    destruct (paragraph_buffer st); [contradiction | reflexivity].
  - destruct (StrFacts.clean_line_normalized
                (join " " (paragraph_buffer st))) as (_ & ->).
    apply split_join_lines.
Qed.

Lemma flush_paragraph_keeps_words_witness :
  paragraph_buffer
    {| current_section := None; current_sub := None; out := [];
       paragraph_buffer := ["Sales rose"; "in every region."] |} <> []
  /\ exists t,
       out (flush_paragraph
              {| current_section := None; current_sub := None; out := [];
                 paragraph_buffer := ["Sales rose"; "in every region."] |})
       = [] ++ [Paragraph None None t]
       /\ split t = ["Sales"; "rose"; "in"; "every"; "region."].
Proof.
  split; [discriminate|].
  apply (flush_paragraph_keeps_words
           {| current_section := None; current_sub := None; out := [];
              paragraph_buffer := ["Sales rose"; "in every region."] |}).
  discriminate.
Defined.

(** ** The numbering pattern *)

Lemma numbering_tail_sound_bounded (n : nat) :
  forall s t r,
    (String.length s <= n)%nat ->
    numbering_tail s = (t, r) ->
    s = (t ++ r)%string /\ token_tail t = true /\ token_stops r = true.
Proof.
  induction n as [|n IH]; intros s t r Hlen H.
  - destruct s; [|simpl in Hlen; lia]. injection H as <- <-. auto.
  - destruct s as [|c s']; [injection H as <- <-; auto|].
    simpl in Hlen. cbn [numbering_tail] in H.
    destruct (isdigit c) eqn:Ec.
    + destruct (numbering_tail s') as (t', r') eqn:E.
      injection H as <- <-.
      destruct (IH s' t' r' ltac:(lia) E) as (-> & Ht & Hr).
      simpl. rewrite Ec. auto.
    + destruct (Ascii.eqb c ".") eqn:Edot.
      * destruct s' as [|d s''].
        { injection H as <- <-. simpl. rewrite Ec, Edot. auto. }
        destruct (isdigit d) eqn:Ed.
        { destruct (numbering_tail s'') as (t', r') eqn:E.
          injection H as <- <-. simpl in Hlen.
          destruct (IH s'' t' r' ltac:(lia) E) as (-> & Ht & Hr).
          simpl. rewrite Ec, Edot, Ed. auto. }
        { injection H as <- <-. simpl. rewrite Ec, Edot, Ed. auto. }
      * injection H as <- <-. simpl. rewrite Ec, Edot. auto.
Qed.

Lemma numbering_tail_sound (s t r : string) :
  numbering_tail s = (t, r) ->
  s = (t ++ r)%string /\ token_tail t = true /\ token_stops r = true.
Proof. apply (numbering_tail_sound_bounded (String.length s)). lia. Qed.

Lemma numbering_tail_stop (r : string) :
  token_stops r = true -> numbering_tail r = (EmptyString, r).
Proof.
  destruct r as [|c r']; [reflexivity|]. simpl. intros H.
  apply andb_true_iff in H. destruct H as (Hc & Hd).
  apply negb_true_iff in Hc. rewrite Hc.
  destruct (Ascii.eqb c "."); [|reflexivity].
  destruct r' as [|d r'']; [reflexivity|].
  simpl in Hd. apply negb_true_iff in Hd. now rewrite Hd.
Qed.

Lemma numbering_tail_complete_bounded (n : nat) :
  forall t r,
    (String.length t <= n)%nat ->
    token_tail t = true -> token_stops r = true ->
    numbering_tail (t ++ r) = (t, r).
Proof.
  induction n as [|n IH]; intros t r Hlen Ht Hr.
  - destruct t; [|simpl in Hlen; lia]. now apply numbering_tail_stop.
  - destruct t as [|c t']; [now apply numbering_tail_stop|].
    simpl in Hlen. cbn [token_tail] in Ht. cbn [append numbering_tail].
    destruct (isdigit c) eqn:Ec.
    + now rewrite (IH t' r ltac:(lia) Ht Hr).
    + destruct (Ascii.eqb c "."); [|discriminate].
      destruct t' as [|d t'']; [discriminate|].
      apply andb_true_iff in Ht. destruct Ht as (Hd & Ht).
      cbn [append]. rewrite Hd. simpl in Hlen.
      now rewrite (IH t'' r ltac:(lia) Ht Hr).
Qed.

Lemma isdigit_not_space (c : ascii) : isdigit c = true -> isspace c = false.
Proof.
  destruct c as [[] [] [] [] [] [] [] []]; try discriminate; reflexivity.
Qed.

Lemma separator_stops (d : ascii) (r : string) :
  is_separator d = true -> token_stops (String d r) = true.
Proof.
  unfold is_separator.
  destruct d as [[] [] [] [] [] [] [] []]; try discriminate; reflexivity.
Qed.

Lemma lstrip_blank_prefix (p s : string) :
  blank p = true -> lstrip (p ++ s) = lstrip s.
Proof.
  induction p as [|c p IH]; [reflexivity|]. simpl. intros H.
  apply andb_true_iff in H. destruct H as (Hc & Hp).
  rewrite Hc. now apply IH.
Qed.

Lemma count_nonneg (c : ascii) (s : string) : 0 <= count c s.
Proof.
  induction s as [|d s IH]; simpl; [lia|].
  destruct (Ascii.eqb d c); lia.
Qed.

Lemma match_numbering_sound (text num g2 : string) :
  match_numbering text = Some (num, g2) ->
  exists d r,
    lstrip text = (num ++ String d r)%string
    /\ numbering_token num = true
    /\ is_separator d = true
    /\ g2 = dot_star (lstrip r).
Proof.
  unfold match_numbering. destruct (lstrip text) as [|c s']; [discriminate|].
  destruct (isdigit c) eqn:Ec; [|discriminate].
  destruct (numbering_tail s') as (t, r) eqn:E.
  destruct (numbering_tail_sound s' t r E) as (-> & Ht & _).
  destruct r as [|d r']; [discriminate|].
  destruct (isspace d || Ascii.eqb d "-") eqn:Ed; [|discriminate].
  intros H. injection H as <- <-. exists d, r'.
  simpl. rewrite Ec. auto.
Qed.

(** X5: what a match of [is_numbered_heading] means.  After its leading
    whitespace the text is the numbering, one separator (whitespace or a
    hyphen) and a rest; the numbering is digit groups separated by single
    dots; the level is its number of dots plus one, hence at least 1; the
    title is the first line of the rest, stripped.  The heading level kept
    by the page loop is 1 for a numbering without dot and 2 otherwise. *)
Theorem is_numbered_heading_sound (text : string) (ni : num_info) :
  is_numbered_heading text = Some ni ->
  (exists d r,
     lstrip text = (numbering ni ++ String d r)%string
     /\ is_separator d = true
     /\ title ni = strip (dot_star (lstrip r)))
  /\ numbering_token (numbering ni) = true
  /\ level ni = count "."%char (numbering ni) + 1
  /\ 1 <= level ni
  /\ (heading_level_of ni = 1 <-> count "."%char (numbering ni) = 0)
  /\ (heading_level_of ni = 1 \/ heading_level_of ni = 2).
Proof.
  unfold is_numbered_heading. destruct (is_empty text); [discriminate|].
  destruct (match_numbering text) as [(num, g2)|] eqn:E; [|discriminate].
  intros H. injection H as <-.
  destruct (match_numbering_sound text num g2 E) as (d & r & H1 & H2 & H3 & ->).
  pose proof (count_nonneg "."%char num) as Hc.
  unfold heading_level_of. cbn [numbering title level].
  split; [exists d, r; auto|]. split; [assumption|].
  split; [reflexivity|]. split; [lia|]. split.
  - destruct (count "." num + 1 =? 1) eqn:E1.
    + apply Z.eqb_eq in E1. split; intros; [lia | reflexivity].
    + apply Z.eqb_neq in E1. split; intros; [discriminate | lia].
  - destruct (count "." num + 1 =? 1); auto.
Qed.

Lemma is_numbered_heading_sound_witness :
  is_numbered_heading "3.10.2-  Notes  "
  = Some {| numbering := "3.10.2"; title := "Notes"; level := 3 |}
  /\ numbering_token "3.10.2" = true
  /\ heading_level_of
       {| numbering := "3.10.2"; title := "Notes"; level := 3 |} = 2.
Proof.
  split; [reflexivity|].
  destruct (is_numbered_heading_sound "3.10.2-  Notes  "
              {| numbering := "3.10.2"; title := "Notes"; level := 3 |}
              eq_refl)
    as (_ & Htok & _ & _ & _ & Hlvl).
  split; [exact Htok|].
  destruct Hlvl as [Hl | Hl]; [discriminate Hl | exact Hl].
Defined.

Lemma is_empty_append (a b : string) :
  is_empty b = false -> is_empty (a ++ b) = false.
Proof. destruct a; trivial. Qed.

Lemma numbering_token_not_empty (tok s : string) :
  numbering_token tok = true -> is_empty (tok ++ s) = false.
Proof. destruct tok; [discriminate | reflexivity]. Qed.

(** The pattern on a text that starts, after blank [p], with the token
    [tok] followed by text that does not continue the token. *)
Lemma match_numbering_token (p tok r : string) :
  blank p = true -> numbering_token tok = true -> token_stops r = true ->
  match_numbering (p ++ tok ++ r)
  = match r with
    | EmptyString => None
    | String d r' =>
        if is_separator d then Some (tok, dot_star (lstrip r')) else None
    end.
Proof.
  intros Hp Htok Hr. unfold match_numbering.
  rewrite (lstrip_blank_prefix p _ Hp).
  destruct tok as [|c t]; [discriminate|].
  simpl in Htok. apply andb_true_iff in Htok. destruct Htok as (Hc & Ht).
  cbn [append lstrip]. rewrite (isdigit_not_space c Hc), Hc.
  rewrite (numbering_tail_complete_bounded (String.length t) t r
             (Nat.le_refl _) Ht Hr).
  reflexivity.
Qed.

(** X6: every text of the shape the pattern describes is matched, with
    the longest numbering: blank text, a numbering token, a separator
    (whitespace or a hyphen) and any rest give the token as numbering, its
    number of dots plus one as level and the stripped first line of the
    rest as title. *)
Theorem is_numbered_heading_complete (p tok : string) (d : ascii)
    (r : string) :
  blank p = true -> numbering_token tok = true -> is_separator d = true ->
  is_numbered_heading (p ++ tok ++ String d r)
  = Some {| numbering := tok;
            title := strip (dot_star (lstrip r));
            level := count "."%char tok + 1 |}.
Proof.
  intros Hp Htok Hd. unfold is_numbered_heading.
  rewrite (is_empty_append p _ (numbering_token_not_empty tok _ Htok)).
  rewrite (match_numbering_token p tok (String d r) Hp Htok
             (separator_stops d r Hd)).
  now rewrite Hd.
Qed.

Lemma is_numbered_heading_complete_witness :
  blank "  " = true /\ numbering_token "2.1" = true
  /\ is_separator " " = true
  /\ is_numbered_heading ("  " ++ "2.1" ++ String " " " Revenue Growth ")
     = Some {| numbering := "2.1"; title := "Revenue Growth"; level := 2 |}.
Proof.
  repeat (split; [reflexivity|]).
  apply (is_numbered_heading_complete "  " "2.1" " " " Revenue Growth ");
    reflexivity.
Defined.

(** X7: what the pattern rejects.  A text whose first character after the
    leading whitespace is not a digit is not a numbered heading; neither
    is a text whose numbering token is followed by the end of the text or
    by a character that is neither whitespace nor a hyphen, so that
    "1. Introduction", "3.Results" and a bare "2024" are not numbered
    headings. *)
Theorem is_numbered_heading_rejects :
  (forall text,
     starts_digit (lstrip text) = false -> is_numbered_heading text = None)
  /\ (forall p tok,
        blank p = true -> numbering_token tok = true ->
        is_numbered_heading (p ++ tok) = None)
  /\ (forall p tok c r,
        blank p = true -> numbering_token tok = true ->
        token_stops (String c r) = true -> is_separator c = false ->
        is_numbered_heading (p ++ tok ++ String c r) = None).
Proof.
  split; [|split].
  - intros text H. unfold is_numbered_heading, match_numbering.
    destruct (is_empty text); [reflexivity|].
    destruct (lstrip text) as [|c s]; [reflexivity|].
    simpl in H. now rewrite H.
  - intros p tok Hp Htok. unfold is_numbered_heading.
    destruct (is_empty (p ++ tok)); [reflexivity|].
    pose proof (match_numbering_token p tok "" Hp Htok eq_refl) as H.
    assert (E : (tok ++ "")%string = tok).
    { clear. induction tok as [|c t IH]; simpl; [reflexivity|].
      now rewrite IH. }
    rewrite E in H. now rewrite H.
  - intros p tok c r Hp Htok Hstop Hsep. unfold is_numbered_heading.
    destruct (is_empty (p ++ tok ++ String c r)); [reflexivity|].
    rewrite (match_numbering_token p tok (String c r) Hp Htok Hstop).
    now rewrite Hsep.
Qed.

Lemma is_numbered_heading_rejects_witness :
  is_numbered_heading ("" ++ "1" ++ String "." " Introduction") = None
  /\ is_numbered_heading ("" ++ "3" ++ String "." "Results") = None
  /\ is_numbered_heading ("" ++ "2024") = None
  /\ is_numbered_heading "Revenue 2.1" = None.
Proof.
  destruct is_numbered_heading_rejects as (H1 & H2 & H3).
  split; [apply H3; reflexivity|].
  split; [apply H3; reflexivity|].
  split; [apply H2; reflexivity | apply H1; reflexivity].
Defined.

(** ** The text stream of a page *)

Lemma flush_paragraph_out (st : builder) :
  out (flush_paragraph st)
  = out st
    ++ match paragraph_buffer st with
       | [] => []
       | _ :: _ =>
           [Paragraph (current_section st) (current_sub st)
              (clean_line (join " " (paragraph_buffer st)))]
       end.
Proof.
  unfold flush_paragraph. destruct (paragraph_buffer st).
  - now rewrite app_nil_r.
  - reflexivity.
Qed.

Lemma split_clean_join (l : list string) :
  split (clean_line (join " " l)) = flat_map split l.
Proof.
  destruct (StrFacts.clean_line_normalized (join " " l)) as (_ & ->).
  apply split_join_lines.
Qed.

Lemma flush_accounts (ss sub : option Z) (tol : Z) (st : builder)
    (L : list line) :
  accounts_for ss sub tol st L ->
  accounts_for ss sub tol (flush_paragraph st) L.
Proof.
  intros (Hh & Hw). unfold accounts_for.
  destruct (flush_paragraph_context st) as (_ & _ & ->).
  rewrite flush_paragraph_out. unfold headings, paragraph_texts in *.
  rewrite !flat_map_app, app_nil_r.
  destruct (paragraph_buffer st) as [|x l] eqn:E.
  - simpl. rewrite !app_nil_r in *. auto.
  - cbn [flat_map]. rewrite !app_nil_r. split; [assumption|].
    cbn [flat_map app]. rewrite app_nil_r, split_clean_join. exact Hw.
Qed.

Lemma heading_accounts (ss sub : option Z) (tol : Z) (st st' : builder)
    (L : list line) (ln : line) (l : Z) (t : string) :
  out st' = out st ++ [Heading l t] ->
  paragraph_buffer st' = paragraph_buffer st ->
  line_heading ss sub tol ln = [(l, t)] ->
  line_body ss sub tol ln = [] ->
  accounts_for ss sub tol st L ->
  accounts_for ss sub tol st' (L ++ [ln]).
Proof.
  intros Ho Hb Hlh Hlb (Hh & Hw). unfold accounts_for.
  rewrite Ho, Hb. unfold headings, paragraph_texts in *.
  rewrite !flat_map_app. cbn [flat_map]. rewrite !app_nil_r, Hlh, Hlb.
  rewrite Hh. cbn [flat_map]. rewrite app_nil_r. auto.
Qed.

(** [step_line] read through [line_rule]. *)
Lemma step_line_by_rule (ss sub : option Z) (tol : Z) (st : builder)
    (ln : line) :
  step_line ss sub tol st ln
  = match line_rule ss sub tol ln with
    | None => st
    | Some (t, SectionSize) =>
        open_section (heading_text_of t) (flush_paragraph st)
    | Some (t, SubsectionSize) =>
        open_subsection (heading_text_of t) (flush_paragraph st)
    | Some (t, Numbered ni) =>
        if heading_level_of ni =? 1
        then open_section (heading_text_of t) (flush_paragraph st)
        else open_subsection (heading_text_of t) (flush_paragraph st)
    | Some (t, BoldShort) => open_subsection t (flush_paragraph st)
    | Some (t, Body) => buffer_line t st
    end.
Proof.
  unfold step_line, line_rule. destruct (spans ln) as [|sp rest];
    [reflexivity|].
  cbv zeta. destruct (is_empty (line_text_of (sp :: rest))); reflexivity.
Qed.

Lemma heading_level_of_cases (ni : num_info) :
  (heading_level_of ni =? 1) = true /\ heading_level_of ni = 1
  \/ (heading_level_of ni =? 1) = false /\ heading_level_of ni = 2.
Proof.
  unfold heading_level_of. destruct (level ni =? 1); [left | right];
    split; reflexivity.
Qed.

Lemma step_line_accounts (ss sub : option Z) (tol : Z) (st : builder)
    (L : list line) (ln : line) :
  accounts_for ss sub tol st L ->
  accounts_for ss sub tol (step_line ss sub tol st ln) (L ++ [ln]).
Proof.
  intros H. rewrite step_line_by_rule.
  pose proof (flush_accounts ss sub tol st L H) as Hf.
  destruct (line_rule ss sub tol ln) as [[t [| |ni| |]]|] eqn:E.
  - apply (heading_accounts ss sub tol (flush_paragraph st) _ L ln 1
             (heading_text_of t));
      try reflexivity; try assumption;
      unfold line_heading, line_body; now rewrite E.
  - apply (heading_accounts ss sub tol (flush_paragraph st) _ L ln 2
             (heading_text_of t));
      try reflexivity; try assumption;
      unfold line_heading, line_body; now rewrite E.
  - destruct (heading_level_of_cases ni) as [(Hb & Hl) | (Hb & Hl)];
      rewrite Hb;
      apply (heading_accounts ss sub tol (flush_paragraph st) _ L ln
               (heading_level_of ni) (heading_text_of t));
      try assumption; try reflexivity; try (rewrite Hl; reflexivity);
      unfold line_heading, line_body; now rewrite E.
  - apply (heading_accounts ss sub tol (flush_paragraph st) _ L ln 2 t);
      try reflexivity; try assumption;
      unfold line_heading, line_body; now rewrite E.
  - destruct H as (Hh & Hw). unfold accounts_for.
    rewrite !flat_map_app. unfold line_heading, line_body.
    cbn [flat_map]. rewrite E. cbn [buffer_line out paragraph_buffer].
    rewrite !flat_map_app. cbn [flat_map app]. rewrite !app_nil_r.
    split; [assumption|]. now rewrite app_assoc, Hw.
  - destruct H as (Hh & Hw). unfold accounts_for.
    rewrite !flat_map_app. unfold line_heading, line_body.
    cbn [flat_map]. rewrite E. cbn [flat_map app]. rewrite !app_nil_r.
    auto.
Qed.

Lemma lines_accounts (ss sub : option Z) (tol : Z) (ls : list line) :
  forall st L,
    accounts_for ss sub tol st L ->
    accounts_for ss sub tol (fold_left (step_line ss sub tol) ls st)
      (L ++ ls).
Proof.
  induction ls as [|ln ls IH]; intros st L H; simpl.
  - now rewrite app_nil_r.
  - replace (L ++ ln :: ls) with ((L ++ [ln]) ++ ls)
      by (now rewrite <- app_assoc).
    apply IH. now apply step_line_accounts.
Qed.

Lemma chart_accounts (ss sub : option Z) (tol : Z) (st : builder)
    (L : list line) (s : option string) (d : string) (cd : option grid) :
  accounts_for ss sub tol st L ->
  accounts_for ss sub tol (emit (Chart s d cd) st) L.
Proof.
  intros (Hh & Hw). unfold accounts_for. cbn [emit out paragraph_buffer].
  unfold headings, paragraph_texts in *. rewrite !flat_map_app.
  cbn [flat_map]. rewrite !app_nil_r. auto.
Qed.

Lemma step_block_accounts (ss sub : option Z) (tol : Z) (st : builder)
    (L : list line) (b : block) :
  accounts_for ss sub tol st L ->
  accounts_for ss sub tol (step_block ss sub tol st b) (L ++ block_lines b).
Proof.
  intros H. unfold step_block, block_lines. destruct (btype b =? 0).
  - now apply lines_accounts.
  - rewrite app_nil_r. destruct (btype b =? 1).
    + now apply chart_accounts, flush_accounts.
    + now apply flush_accounts.
Qed.

Lemma blocks_accounts (ss sub : option Z) (tol : Z) (bs : list block) :
  forall st L,
    accounts_for ss sub tol st L ->
    accounts_for ss sub tol (fold_left (step_block ss sub tol) bs st)
      (L ++ flat_map block_lines bs).
Proof.
  induction bs as [|b bs IH]; intros st L H; simpl.
  - now rewrite app_nil_r.
  - rewrite app_assoc. apply IH. now apply step_block_accounts.
Qed.

Lemma build_page_accounts (ss sub : option Z) (tol : Z) (pg : page) :
  accounts_for ss sub tol (build_page ss sub tol pg) (page_lines pg)
  /\ paragraph_buffer (build_page ss sub tol pg) = [].
Proof.
  unfold build_page. split; [|apply flush_paragraph_context].
  apply flush_accounts.
  apply (blocks_accounts ss sub tol (blocks pg) init_builder []).
  split; reflexivity.
Qed.

(** X8: the text stream of a page accounts for its lines.  Its headings
    are the headings of the lines of the text blocks, one per heading line
    and in line order; the words of its paragraphs are the words of the
    body lines, in line order: flushes, image blocks and other blocks lose
    no word, repeat none and move none. *)
Theorem text_stream_accounts_for_lines (pg : page)
    (ss sub : option Z) (tol : Z) :
  let items := extract_paragraphs_and_headings_from_page pg ss sub tol in
  headings items = flat_map (line_heading ss sub tol) (page_lines pg)
  /\ flat_map split (paragraph_texts items)
     = flat_map split (flat_map (line_body ss sub tol) (page_lines pg)).
Proof.
  destruct (build_page_accounts ss sub tol pg) as ((Hh & Hw) & Hb).
  rewrite Hb, app_nil_r in Hw. split; assumption.
Qed.

Lemma strip_starts (s : string) :
  is_empty (strip s) = false -> starts_nospace (strip s) = true.
Proof.
  unfold strip. intros H. destruct (StrFacts.lstrip_starts s) as [E | E].
  - rewrite E in H. discriminate.
  - now apply StrFacts.rstrip_starts.
Qed.

Lemma line_rule_text (ss sub : option Z) (tol : Z) (ln : line)
    (t : string) (r : rule) :
  line_rule ss sub tol ln = Some (t, r) ->
  starts_nospace t = true /\ blank t = false.
Proof.
  unfold line_rule. destruct (spans ln) as [|sp rest]; [discriminate|].
  cbv zeta. unfold line_text_of.
  destruct (is_empty (strip (join "" (map text (sp :: rest))))) eqn:E;
    [discriminate|].
  intros H. injection H as <- _. split.
  - now apply strip_starts.
  - now apply StrFacts.strip_not_blank.
Qed.

Lemma heading_text_of_starts (t : string) :
  starts_nospace t = true -> starts_nospace (heading_text_of t) = true.
Proof.
  intros Ht. unfold heading_text_of, is_numbered_heading.
  destruct (is_empty t); [assumption|].
  destruct (match_numbering t) as [(num, g2)|]; [|assumption].
  cbn [title]. destruct (is_empty (strip g2)) eqn:E; [assumption|].
  now apply strip_starts.
Qed.

Lemma flush_paragraph_stream (st : builder) :
  builder_ok st -> Forall stream_item_ok (out st) ->
  Forall stream_item_ok (out (flush_paragraph st)).
Proof.
  intros (Hb & _) Ho. rewrite flush_paragraph_out.
  apply Forall_app. split; [assumption|].
  destruct (paragraph_buffer st) as [|x l] eqn:E; constructor;
    [|constructor].
  cbn [stream_item_ok]. split.
  - apply StrFacts.clean_line_normalized.
  - apply StrFacts.clean_line_not_empty, StrFacts.blank_join.
    inversion Hb; subst. now constructor.
Qed.

Lemma step_line_stream (ss sub : option Z) (tol : Z) (st : builder)
    (ln : line) :
  builder_ok st -> Forall stream_item_ok (out st) ->
  Forall stream_item_ok (out (step_line ss sub tol st ln)).
Proof.
  intros Hok Ho. rewrite step_line_by_rule.
  pose proof (flush_paragraph_stream st Hok Ho) as Hf.
  assert (Hhead : forall l t,
             (l = 1 \/ l = 2) -> starts_nospace t = true ->
             Forall stream_item_ok (out (flush_paragraph st) ++ [Heading l t])).
  { intros l t Hl Ht. apply Forall_app. split; [assumption|].
    constructor; [split; assumption | constructor]. }
  destruct (line_rule ss sub tol ln) as [[t r]|] eqn:E; [|assumption].
  destruct (line_rule_text ss sub tol ln t r E) as (Ht & _).
  pose proof (heading_text_of_starts t Ht) as Hht.
  destruct r as [| |ni| |].
  - apply Hhead; auto.
  - apply Hhead; auto.
  - destruct (heading_level_of ni =? 1); apply Hhead; auto.
  - apply Hhead; auto.
  - assumption.
Qed.

Lemma step_block_stream (ss sub : option Z) (tol : Z) (st : builder)
    (b : block) :
  stream_ok st -> stream_ok (step_block ss sub tol st b).
Proof.
  intros H. split; [apply step_block_ok, H|].
  unfold step_block. destruct (btype b =? 0).
  - revert st H. induction (lines b) as [|ln ls IH]; intros st H; simpl.
    + apply H.
    + apply IH. split.
      * apply step_line_ok, H.
      * apply step_line_stream; apply H.
  - destruct H as (Hok & Ho).
    pose proof (flush_paragraph_stream st Hok Ho) as Hf.
    destruct (btype b =? 1); [|assumption].
    cbn [emit out]. apply Forall_app. split; [assumption|].
    constructor; [split; reflexivity | constructor].
Qed.

Lemma build_page_stream (ss sub : option Z) (tol : Z) (pg : page) :
  Forall stream_item_ok (out (build_page ss sub tol pg)).
Proof.
  unfold build_page.
  assert (H : stream_ok (fold_left (step_block ss sub tol) (blocks pg)
                           init_builder)).
  { assert (H0 : stream_ok init_builder)
      by (split; [split|]; constructor).
    revert H0. generalize init_builder.
    induction (blocks pg) as [|b bs IH]; intros st H; simpl; [assumption|].
    apply IH. now apply step_block_stream. }
  destruct H as (Hok & Ho). now apply flush_paragraph_stream.
Qed.

(** X9: every item of the text stream of a page is well formed.  A
    heading has level 1 or 2 and a text that is not empty and does not
    start with whitespace; a paragraph has a normalised text that is not
    empty; a chart is the image block placeholder, without chart data; no
    table item appears. *)
Theorem text_stream_items_well_formed (pg : page) (ss sub : option Z)
    (tol : Z) (it : item) :
  In it (extract_paragraphs_and_headings_from_page pg ss sub tol) ->
  match it with
  | Heading l t => (l = 1 \/ l = 2) /\ t <> "" /\ starts_nospace t = true
  | Paragraph _ _ t => normalized t = true /\ t <> ""
  | Chart _ d cd =>
      d = "image block detected (image data handled separately)"
      /\ cd = None
  | Table _ _ _ => False
  end.
Proof.
  intros Hin. pose proof (build_page_stream ss sub tol pg) as H.
  rewrite Forall_forall in H. specialize (H it Hin).
  destruct it as [l t|s u t|s d cd|s d g]; try exact H.
  destruct H as (Hl & Ht). split; [assumption|]. split; [|assumption].
  intros ->. discriminate.
Qed.

Lemma text_stream_items_well_formed_witness :
  In (Heading 1 "Revenue Growth")
    (extract_paragraphs_and_headings_from_page report_page
       (Some 180) (Some 140) default_tol)
  /\ starts_nospace "Revenue Growth" = true.
Proof.
  assert (H : In (Heading 1 "Revenue Growth")
                (extract_paragraphs_and_headings_from_page report_page
                   (Some 180) (Some 140) default_tol))
    by (now left).
  split; [exact H|].
  apply (text_stream_items_well_formed report_page (Some 180) (Some 140)
           default_tol (Heading 1 "Revenue Growth") H).
Defined.

(** ** Section and subsection tags *)

Lemma well_tagged_app (ctx : option string * option string)
    (a b : list item) :
  well_tagged ctx (a ++ b)
  <-> well_tagged ctx a /\ well_tagged (fold_left next_context a ctx) b.
Proof.
  revert ctx. induction a as [|it a IH]; intros ctx; simpl.
  - tauto.
  - rewrite IH. tauto.
Qed.

Lemma tags_ok_snoc (st st' : builder) (it : item) :
  tags_ok st ->
  out st' = out st ++ [it] ->
  match it with
  | Paragraph s u _ => s = current_section st /\ u = current_sub st
  | Chart s _ _ => s = current_section st
  | _ => True
  end ->
  next_context (current_section st, current_sub st) it
  = (current_section st', current_sub st') ->
  tags_ok st'.
Proof.
  intros (Hw & Hc) Ho Hit Hnext. unfold tags_ok, context_after in *.
  rewrite Ho. split.
  - apply well_tagged_app. split; [assumption|]. rewrite Hc. simpl.
    split; [|exact I]. destruct it; try exact I; exact Hit.
  - rewrite fold_left_app, Hc. simpl. exact Hnext.
Qed.

Lemma flush_paragraph_tags (st : builder) :
  tags_ok st -> tags_ok (flush_paragraph st).
Proof.
  intros H. unfold flush_paragraph.
  destruct (paragraph_buffer st) as [|x l]; [assumption|].
  eapply tags_ok_snoc; [exact H | reflexivity | | reflexivity].
  split; reflexivity.
Qed.

Lemma open_section_tags (t : string) (st : builder) :
  tags_ok st -> tags_ok (open_section t st).
Proof.
  intros H. eapply tags_ok_snoc; [exact H | reflexivity | exact I |].
  reflexivity.
Qed.

Lemma open_subsection_tags (t : string) (st : builder) :
  tags_ok st -> tags_ok (open_subsection t st).
Proof.
  intros H. eapply tags_ok_snoc; [exact H | reflexivity | exact I |].
  reflexivity.
Qed.

Lemma step_line_tags (ss sub : option Z) (tol : Z) (st : builder)
    (ln : line) :
  tags_ok st -> tags_ok (step_line ss sub tol st ln).
Proof.
  intros H. rewrite step_line_by_rule.
  pose proof (flush_paragraph_tags st H) as Hf.
  destruct (line_rule ss sub tol ln) as [[t [| |ni| |]]|]; try assumption.
  - now apply open_section_tags.
  - now apply open_subsection_tags.
  - destruct (heading_level_of ni =? 1);
      [now apply open_section_tags | now apply open_subsection_tags].
  - now apply open_subsection_tags.
Qed.

Lemma step_block_tags (ss sub : option Z) (tol : Z) (st : builder)
    (b : block) :
  tags_ok st -> tags_ok (step_block ss sub tol st b).
Proof.
  intros H. unfold step_block. destruct (btype b =? 0).
  - revert st H. induction (lines b) as [|ln ls IH]; intros st H; simpl;
      [assumption|].
    apply IH. now apply step_line_tags.
  - pose proof (flush_paragraph_tags st H) as Hf.
    destruct (btype b =? 1); [|assumption].
    eapply tags_ok_snoc; [exact Hf | reflexivity | reflexivity |].
    reflexivity.
Qed.

Lemma build_page_tags (ss sub : option Z) (tol : Z) (pg : page) :
  tags_ok (build_page ss sub tol pg).
Proof.
  unfold build_page. apply flush_paragraph_tags.
  assert (H0 : tags_ok init_builder) by (split; [exact I | reflexivity]).
  revert H0. generalize init_builder.
  induction (blocks pg) as [|b bs IH]; intros st H; simpl; [assumption|].
  apply IH. now apply step_block_tags.
Qed.

(** X10: the tags of the text stream follow its headings.  A paragraph
    carries the section and subsection that the headings before it leave:
    the text of the last level 1 heading, and the text of the last level 2
    heading after that one; a chart carries that section.  Each is none
    where there is no such heading, the page starting without section. *)
Theorem text_stream_tags_follow_headings (pg : page) (ss sub : option Z)
    (tol : Z) (before after : list item) (it : item) :
  extract_paragraphs_and_headings_from_page pg ss sub tol
  = before ++ it :: after ->
  match it with
  | Paragraph s u _ => (s, u) = context_after before
  | Chart s _ _ => s = fst (context_after before)
  | _ => True
  end.
Proof.
  intros E. destruct (build_page_tags ss sub tol pg) as (Hw & _).
  unfold extract_paragraphs_and_headings_from_page in E. rewrite E in Hw.
  apply well_tagged_app in Hw. destruct Hw as (_ & Hit).
  cbn [well_tagged] in Hit. destruct Hit as (Hit & _).
  unfold context_after.
  destruct it as [l t|s u t|s d cd|s d g]; try exact I.
  - destruct Hit as (-> & ->).
    now destruct (fold_left next_context before (None, None)).
  - exact Hit.
Qed.

Lemma text_stream_tags_follow_headings_witness :
  extract_paragraphs_and_headings_from_page report_page
    (Some 180) (Some 140) default_tol
  = [Heading 1 "Revenue Growth"; Heading 2 "Highlights"]
    ++ Paragraph (Some "Revenue Growth") (Some "Highlights")
         "Revenue grew in every region." :: []
  /\ (Some "Revenue Growth", Some "Highlights")
     = context_after [Heading 1 "Revenue Growth"; Heading 2 "Highlights"].
Proof.
  split; [reflexivity|].
  apply (text_stream_tags_follow_headings report_page (Some 180) (Some 140)
           default_tol
           [Heading 1 "Revenue Growth"; Heading 2 "Highlights"] []
           (Paragraph (Some "Revenue Growth") (Some "Highlights")
              "Revenue grew in every region.")).
  reflexivity.
Defined.

(** ** Font names *)

Lemma classify_ignores_bold (ss sub : option Z) (tol : Z)
    (line_text : string) (max_size : Z) (b1 b2 : bool) :
  0 <= tol ->
  classify ss sub tol line_text max_size b1
  = classify ss sub tol line_text max_size b2.
Proof.
  intros Htol. unfold classify.
  destruct (size_rule ss max_size tol); [reflexivity|].
  destruct (size_rule sub max_size tol) eqn:Hsub; [reflexivity|].
  destruct (is_numbered_heading line_text); [reflexivity|].
  now rewrite !(bold_rule_dead ss sub tol) by assumption.
Qed.

Lemma line_rule_rename (g : string -> string) (ss sub : option Z)
    (tol : Z) (ln : line) :
  0 <= tol ->
  line_rule ss sub tol (rename_line g ln) = line_rule ss sub tol ln.
Proof.
  intros Htol. unfold line_rule, rename_line. cbn [spans].
  destruct (spans ln) as [|sp rest]; [reflexivity|].
  cbn [map]. cbv zeta.
  assert (Ht : line_text_of (rename_span g sp :: map (rename_span g) rest)
               = line_text_of (sp :: rest)).
  { unfold line_text_of. f_equal. f_equal. cbn [map]. f_equal.
    rewrite map_map. reflexivity. }
  assert (Hm : max_size_of (rename_span g sp) (map (rename_span g) rest)
               = max_size_of sp rest).
  { unfold max_size_of. rewrite map_map. reflexivity. }
  rewrite Ht, Hm. destruct (is_empty (line_text_of (sp :: rest)));
    [reflexivity|].
  f_equal. f_equal. now apply classify_ignores_bold.
Qed.

Lemma fold_left_map_eq {A B C : Type} (f : C -> B -> C) (g : A -> B)
    (h : C -> A -> C) (l : list A) :
  (forall c a, f c (g a) = h c a) ->
  forall c, fold_left f (map g l) c = fold_left h l c.
Proof.
  intros H. induction l as [|a l IH]; intros c; simpl; [reflexivity|].
  now rewrite H, IH.
Qed.

(** X11: font names never influence the text stream.  With a tolerance
    that is not negative, renaming the fonts of a page in any way, bold or
    not, leaves every heading, paragraph and chart of its stream as it
    is. *)
Theorem text_stream_ignores_fonts (g : string -> string) (pg : page)
    (ss sub : option Z) (tol : Z) :
  0 <= tol ->
  extract_paragraphs_and_headings_from_page (rename_fonts g pg) ss sub tol
  = extract_paragraphs_and_headings_from_page pg ss sub tol.
Proof.
  intros Htol.
  unfold extract_paragraphs_and_headings_from_page, build_page.
  f_equal. f_equal. cbn [rename_fonts blocks].
  apply fold_left_map_eq. intros st b.
  unfold step_block. cbn [rename_block btype lines].
  destruct (btype b =? 0); [|reflexivity].
  apply fold_left_map_eq. intros st' ln.
  now rewrite !step_line_by_rule, line_rule_rename.
Qed.

Lemma text_stream_ignores_fonts_witness :
  0 <= default_tol
  /\ extract_paragraphs_and_headings_from_page
       (rename_fonts (fun _ => "Helvetica") bold_line_page)
       (Some 180) (Some 140) default_tol
     = extract_paragraphs_and_headings_from_page bold_line_page
         (Some 180) (Some 140) default_tol.
Proof.
  split; [unfold default_tol; lia|].
  apply (text_stream_ignores_fonts (fun _ => "Helvetica") bold_line_page
           (Some 180) (Some 140) default_tol).
  unfold default_tol. lia.
Defined.

(** ** Documents set in one size *)

Lemma page_lines_In (pg : page) (ln : line) :
  In ln (page_lines pg) <->
  exists b, In b (blocks pg) /\ btype b = 0 /\ In ln (lines b).
Proof.
  unfold page_lines, block_lines. rewrite in_flat_map. split.
  - intros (b & Hb & H). destruct (btype b =? 0) eqn:E; [|contradiction].
    apply Z.eqb_eq in E. eauto.
  - intros (b & Hb & Ht & H). exists b. split; [assumption|].
    now rewrite Ht.
Qed.

Lemma fold_left_max_const (v : Z) (l : list Z) :
  Forall (fun x => x = v) l -> fold_left Z.max l v = v.
Proof.
  induction 1 as [|x l -> _ IH]; simpl; [reflexivity|].
  now rewrite Z.max_id.
Qed.

Lemma paragraphs_without_words (items : list item) :
  Forall stream_item_ok items ->
  flat_map split (paragraph_texts items) = [] ->
  paragraph_texts items = [].
Proof.
  induction 1 as [|it items Hit _ IH]; [reflexivity|].
  unfold paragraph_texts in *. cbn [flat_map].
  destruct it as [l t|s u t|s d cd|s d g]; cbn [app]; try exact IH.
  intros H. exfalso. cbn [flat_map] in H.
  destruct Hit as (Hn & Hne).
  destruct (normalized_starts t Hn) as [-> | Hst]; [now apply Hne|].
  destruct (split_starts t Hst) as (w & ws & Hw).
  rewrite Hw in H. discriminate.
Qed.

Lemma flat_map_all_nil {A B : Type} (f : A -> list B) (l : list A) :
  (forall x, In x l -> f x = []) -> flat_map f l = [].
Proof.
  induction l as [|x l IH]; intros H; [reflexivity|].
  cbn [flat_map]. rewrite (H x (or_introl eq_refl)).
  apply IH. intros y Hy. apply H. now right.
Qed.

(** A page none of whose lines is body text has no paragraph. *)
Lemma no_body_no_paragraph (pg : page) (ss sub : option Z) (tol : Z) :
  (forall ln, In ln (page_lines pg) -> line_body ss sub tol ln = []) ->
  paragraph_texts (extract_paragraphs_and_headings_from_page pg ss sub tol)
  = [].
Proof.
  intros H. apply paragraphs_without_words; [apply build_page_stream|].
  destruct (build_page_accounts ss sub tol pg) as ((_ & Hw) & Hb).
  rewrite Hb, app_nil_r in Hw.
  unfold extract_paragraphs_and_headings_from_page. rewrite Hw.
  now rewrite (flat_map_all_nil _ _ H).
Qed.

(** In a document set in one size, a line that is not skipped takes the
    section-size rule. *)
Lemma line_rule_one_size (doc : document) (v : Z) (pg : page) (ln : line) :
  (forall x, observed doc x -> x = v) -> v <> 0 ->
  In pg doc -> In ln (page_lines pg) ->
  line_rule (section_size_of (gather_font_sizes doc))
    (subsection_size_of (gather_font_sizes doc)) default_tol ln
  = match spans ln with
    | [] => None
    | sp :: rest =>
        if is_empty (line_text_of (sp :: rest)) then None
        else Some (line_text_of (sp :: rest), SectionSize)
    end.
Proof.
  intros Hall Hv Hpg Hln. unfold line_rule.
  destruct (spans ln) as [|sp rest] eqn:Es; [reflexivity|].
  cbv zeta. destruct (is_empty (line_text_of (sp :: rest))); [reflexivity|].
  apply page_lines_In in Hln. destruct Hln as (b & Hb & Ht & Hl).
  assert (Hobs : forall sp', In sp' (sp :: rest) -> size sp' = v).
  { intros sp' Hsp. apply Hall. exists pg, b, ln, sp'.
    rewrite Es. auto 10. }
  assert (Hmax : max_size_of sp rest = v).
  { unfold max_size_of. rewrite (Hobs sp (or_introl eq_refl)).
    apply fold_left_max_const. apply Forall_forall. intros x Hx.
    apply in_map_iff in Hx. destruct Hx as (sp' & <- & Hsp).
    apply Hobs. now right. }
  assert (Hss : section_size_of (gather_font_sizes doc) = Some v).
  { assert (Hin : In v (gather_font_sizes doc)).
    { apply gather_font_sizes_In, collected_sizes_spans.
      exists pg, b, ln, sp. rewrite Es. split; [assumption|].
      split; [assumption|]. split; [assumption|]. split; [assumption|].
      split; [now left|]. apply Hobs. now left. }
    destruct (gather_font_sizes doc) as [|s0 rest'] eqn:Eg;
      [contradiction|].
    simpl. f_equal. apply Hall.
    apply collected_sizes_spans, gather_font_sizes_In.
    rewrite Eg. now left. }
  rewrite Hss, Hmax. f_equal. f_equal.
  apply classify_section_size_first. apply size_rule_true.
  exists v. split; [reflexivity|]. split; [assumption|].
  unfold default_tol. lia.
Qed.

(** X12: in a document whose spans all have one size, not zero, with the
    thresholds [parse_pdf] computes, no page has a paragraph in its text
    stream: every line that is not skipped, whatever its text and length,
    becomes a level 1 heading. *)
Theorem one_size_document_has_only_headings (doc : document) (v : Z)
    (pg : page) :
  (forall x, observed doc x -> x = v) -> v <> 0 -> In pg doc ->
  let sizes := gather_font_sizes doc in
  let items :=
    extract_paragraphs_and_headings_from_page pg
      (section_size_of sizes) (subsection_size_of sizes) default_tol in
  paragraph_texts items = []
  /\ headings items
     = flat_map
         (fun ln =>
            match spans ln with
            | [] => []
            | sp :: rest =>
                if is_empty (line_text_of (sp :: rest)) then []
                else [(1, heading_text_of (line_text_of (sp :: rest)))]
            end)
         (page_lines pg).
Proof.
  intros Hall Hv Hpg sizes items. subst sizes items. split.
  - apply no_body_no_paragraph. intros ln Hln. unfold line_body.
    rewrite (line_rule_one_size doc v pg ln Hall Hv Hpg Hln).
    destruct (spans ln) as [|sp rest]; [reflexivity|].
    destruct (is_empty (line_text_of (sp :: rest))); reflexivity.
  - destruct (build_page_accounts
                (section_size_of (gather_font_sizes doc))
                (subsection_size_of (gather_font_sizes doc))
                default_tol pg) as ((Hh & _) & _).
    unfold extract_paragraphs_and_headings_from_page. rewrite Hh.
    assert (E : forall ls,
               (forall ln, In ln ls -> In ln (page_lines pg)) ->
               flat_map
                 (line_heading (section_size_of (gather_font_sizes doc))
                    (subsection_size_of (gather_font_sizes doc))
                    default_tol) ls
               = flat_map
                   (fun ln =>
                      match spans ln with
                      | [] => []
                      | sp :: rest =>
                          if is_empty (line_text_of (sp :: rest)) then []
                          else [(1, heading_text_of
                                      (line_text_of (sp :: rest)))]
                      end) ls).
    { induction ls as [|ln ls IH]; intros Hsub; [reflexivity|].
      cbn [flat_map]. rewrite IH by (intros l Hl; apply Hsub; now right).
      f_equal. unfold line_heading.
      rewrite (line_rule_one_size doc v pg ln Hall Hv Hpg
                 (Hsub ln (or_introl eq_refl))).
      destruct (spans ln) as [|sp rest]; [reflexivity|].
      destruct (is_empty (line_text_of (sp :: rest))); reflexivity. }
    apply E. auto.
Qed.

Lemma one_size_document_has_only_headings_witness :
  (forall x, observed [one_size_page] x -> x = 110)
  /\ 110 <> 0 /\ In one_size_page [one_size_page]
  /\ paragraph_texts
       (extract_paragraphs_and_headings_from_page one_size_page
          (section_size_of (gather_font_sizes [one_size_page]))
          (subsection_size_of (gather_font_sizes [one_size_page]))
          default_tol)
     = [].
Proof.
  assert (H : forall x, observed [one_size_page] x -> x = 110).
  { intros x Hx. apply collected_sizes_spans in Hx. simpl in Hx.
    destruct Hx as [<- | [<- | []]]; reflexivity. }
  split; [exact H|]. split; [discriminate|]. split; [now left|].
  apply (one_size_document_has_only_headings [one_size_page] 110
           one_size_page H ltac:(discriminate) (or_introl eq_refl)).
Defined.

(** ** Lines that are skipped *)

Lemma blank_join_empty (l : list string) :
  blank (join "" l) = forallb blank l.
Proof.
  induction l as [|x l IH]; [reflexivity|].
  destruct l as [|y l].
  - simpl. now rewrite andb_true_r.
  - rewrite StrFacts.join_cons2, !StrFacts.blank_append, IH. reflexivity.
Qed.

Lemma lstrip_not_blank (s : string) :
  blank s = false -> starts_nospace (lstrip s) = true.
Proof.
  induction s as [|c s IH]; simpl; [discriminate|].
  destruct (isspace c) eqn:E; simpl; [assumption|].
  intros _. now rewrite E.
Qed.

Lemma strip_empty_iff_blank (s : string) :
  is_empty (strip s) = blank s.
Proof.
  destruct (blank s) eqn:E.
  - unfold strip. now rewrite (StrFacts.blank_lstrip s E).
  - unfold strip.
    pose proof (StrFacts.rstrip_starts _ (lstrip_not_blank s E)) as H.
    destruct (rstrip (lstrip s)); [discriminate | reflexivity].
Qed.

Lemma forallb_map_eq {A B : Type} (f : B -> bool) (g : A -> B)
    (l : list A) :
  forallb f (map g l) = forallb (fun x => f (g x)) l.
Proof.
  induction l as [|x l IH]; simpl; [reflexivity | now rewrite IH].
Qed.

Lemma line_rule_none (ss sub : option Z) (tol : Z) (ln : line) :
  line_rule ss sub tol ln = None
  <-> forallb (fun sp => blank (text sp)) (spans ln) = true.
Proof.
  unfold line_rule. destruct (spans ln) as [|sp rest]; [tauto|].
  cbv zeta. unfold line_text_of.
  rewrite strip_empty_iff_blank, blank_join_empty, forallb_map_eq.
  destruct (forallb (fun sp0 => blank (text sp0)) (sp :: rest));
    split; intros H; try reflexivity; discriminate.
Qed.

(** X13: the lines that the page loop skips are exactly those without
    visible text.  A line whose spans (if any) hold nothing but whitespace
    leaves the state of the loop as it is; any other line either adds an
    item to the content or adds its stripped text to the paragraph
    buffer. *)
Theorem step_line_skips_blank_lines (ss sub : option Z) (tol : Z)
    (st : builder) (ln : line) :
  (forallb (fun sp => blank (text sp)) (spans ln) = true ->
   step_line ss sub tol st ln = st)
  /\ (forallb (fun sp => blank (text sp)) (spans ln) = false ->
      (List.length (out st)
       < List.length (out (step_line ss sub tol st ln)))%nat
      \/ (out (step_line ss sub tol st ln) = out st
          /\ paragraph_buffer (step_line ss sub tol st ln)
             = paragraph_buffer st ++ [line_text_of (spans ln)])).
Proof.
  split.
  - intros H. apply (line_rule_none ss sub tol) in H.
    now rewrite step_line_by_rule, H.
  - intros H. rewrite step_line_by_rule.
    destruct (line_rule ss sub tol ln) as [[t r]|] eqn:E.
    + assert (Hgrow : forall st' l h,
                 out st' = out (flush_paragraph st) ++ [Heading l h] ->
                 (List.length (out st) < List.length (out st'))%nat).
      { intros st' l h ->. rewrite flush_paragraph_out, !length_app.
        simpl. lia. }
      destruct r as [| |ni| |]; try (left; eapply Hgrow; reflexivity).
      * left. destruct (heading_level_of ni =? 1);
          eapply Hgrow; reflexivity.
      * right. split; [reflexivity|]. cbn [buffer_line paragraph_buffer].
        f_equal. f_equal. unfold line_rule in E.
        destruct (spans ln) as [|sp rest]; [discriminate|].
        cbv zeta in E.
        destruct (is_empty (line_text_of (sp :: rest))); [discriminate|].
        now injection E as <- _.
    + apply line_rule_none in E. rewrite E in H. discriminate.
Qed.

Lemma step_line_skips_blank_lines_witness :
  forallb (fun sp => blank (text sp))
    (spans {| spans := [ {| text := "   "; size := 110;
                            font := "Times" |} ] |}) = true
  /\ step_line (Some 180) (Some 140) default_tol init_builder
       {| spans := [ {| text := "   "; size := 110; font := "Times" |} ] |}
     = init_builder.
Proof.
  split; [reflexivity|].
  apply (step_line_skips_blank_lines (Some 180) (Some 140) default_tol
           init_builder
           {| spans := [ {| text := "   "; size := 110;
                            font := "Times" |} ] |}).
  reflexivity.
Defined.

(** ** The size list as a function of the sizes observed *)

Lemma strictly_descending_unique (l1 : list Z) :
  forall l2,
    StronglySorted Z.gt l1 -> StronglySorted Z.gt l2 ->
    (forall x, In x l1 <-> In x l2) -> l1 = l2.
Proof.
  induction l1 as [|a l1 IH]; intros l2 H1 H2 Hin.
  - destruct l2 as [|b l2]; [reflexivity|].
    destruct (proj2 (Hin b) (or_introl eq_refl)).
  - destruct l2 as [|b l2];
      [destruct (proj1 (Hin a) (or_introl eq_refl))|].
    inversion H1 as [|? ? H1' Ha]; subst.
    inversion H2 as [|? ? H2' Hb]; subst.
    rewrite Forall_forall in Ha, Hb.
    assert (a = b).
    { destruct (proj1 (Hin a) (or_introl eq_refl)) as [E | E];
        [now symmetry|].
      destruct (proj2 (Hin b) (or_introl eq_refl)) as [E' | E'];
        [assumption|].
      specialize (Ha b E'). specialize (Hb a E). lia. }
    subst b. f_equal. apply IH; [assumption | assumption |].
    intros x. split; intros Hx.
    + destruct (proj1 (Hin x) (or_intror Hx)) as [E | E]; [|assumption].
      subst x. specialize (Ha a Hx). lia.
    + destruct (proj2 (Hin x) (or_intror Hx)) as [E | E]; [|assumption].
      subst x. specialize (Hb a Hx). lia.
Qed.

(** X14: the size list, and so both thresholds, depend only on which
    sizes occur in the document, not on where or how often: two documents
    with the same observed sizes (such as a document and its pages in
    another order) get the same list. *)
Theorem gather_font_sizes_depends_on_size_set (doc1 doc2 : document) :
  (forall x, observed doc1 x <-> observed doc2 x) ->
  gather_font_sizes doc1 = gather_font_sizes doc2
  /\ section_size_of (gather_font_sizes doc1)
     = section_size_of (gather_font_sizes doc2)
  /\ subsection_size_of (gather_font_sizes doc1)
     = subsection_size_of (gather_font_sizes doc2).
Proof.
  intros H.
  assert (E : gather_font_sizes doc1 = gather_font_sizes doc2).
  { apply strictly_descending_unique;
      try apply gather_font_sizes_sorted.
    intros x. rewrite !gather_font_sizes_In, !collected_sizes_spans.
    apply H. }
  now rewrite E.
Qed.

Lemma gather_font_sizes_depends_on_size_set_witness :
  (forall x, observed [report_page; one_size_page] x
             <-> observed [one_size_page; report_page; report_page] x)
  /\ gather_font_sizes [report_page; one_size_page]
     = gather_font_sizes [one_size_page; report_page; report_page].
Proof.
  assert (H : forall x,
             observed [report_page; one_size_page] x
             <-> observed [one_size_page; report_page; report_page] x).
  { intros x.
    change (observed [report_page; one_size_page] x)
      with (exists pg b ln sp,
               In pg [report_page; one_size_page] /\ In b (blocks pg)
               /\ btype b = 0 /\ In ln (lines b) /\ In sp (spans ln)
               /\ size sp = x).
    change (observed [one_size_page; report_page; report_page] x)
      with (exists pg b ln sp,
               In pg [one_size_page; report_page; report_page]
               /\ In b (blocks pg)
               /\ btype b = 0 /\ In ln (lines b) /\ In sp (spans ln)
               /\ size sp = x).
    rewrite <- !collected_sizes_spans. simpl. tauto. }
  split; [exact H|].
  apply (gather_font_sizes_depends_on_size_set
           [report_page; one_size_page]
           [one_size_page; report_page; report_page] H).
Defined.

(** ** Image charts and the OCR switch *)

(** X15: the chart of an image always has a description that is not empty
    and does not start with whitespace.  Without OCR it is one of the two
    fixed strings; with OCR on an image that decodes and is read, it is the
    stripped OCR text, or "image detected" when that text is blank. *)
Theorem image_item_description (pil_image : Type)
    (extract_image : Z -> exc pil_image)
    (image_to_string : pil_image -> exc string)
    (enable_ocr : bool) (xref : Z) :
  exists d,
    image_item pil_image extract_image image_to_string enable_ocr xref
    = Chart None d None
    /\ d <> "" /\ starts_nospace d = true
    /\ (enable_ocr = false ->
        d = "image detected" \/ d = "image detected (failed to extract)")
    /\ (forall im s,
          enable_ocr = true -> extract_image xref = Val im ->
          image_to_string im = Val s ->
          d = if blank s then "image detected" else strip s).
Proof.
  unfold image_item. destruct (extract_image xref) as [im|] eqn:Ei.
  - cbn [bind try_except]. destruct enable_ocr.
    + destruct (image_to_string im) as [s|] eqn:Es; cbn [bind try_except].
      * unfold description_or_default.
        rewrite (strip_empty_iff_blank s).
        destruct (blank s) eqn:Eb.
        { eexists. split; [reflexivity|]. split; [discriminate|].
          split; [reflexivity|]. split; [discriminate|].
          intros im' s' _ Him Hs. injection Him as <-.
          rewrite Es in Hs. injection Hs as <-. now rewrite Eb. }
        { eexists. split; [reflexivity|].
          assert (He : is_empty (strip s) = false)
            by (now rewrite strip_empty_iff_blank).
          split; [intros E; rewrite E in He; discriminate|].
          split; [now apply strip_starts|]. split; [discriminate|].
          intros im' s' _ Him Hs. injection Him as <-.
          rewrite Es in Hs. injection Hs as <-. now rewrite Eb. }
      * eexists. split; [reflexivity|]. split; [discriminate|].
        split; [reflexivity|]. split; [discriminate|].
        intros im' s' _ Him Hs. injection Him as <-.
        rewrite Es in Hs. discriminate.
    + eexists. split; [reflexivity|]. split; [discriminate|].
      split; [reflexivity|]. split; [now left|]. discriminate.
  - cbn [bind try_except].
    eexists. split; [reflexivity|]. split; [discriminate|].
    split; [reflexivity|]. split; [now right|].
    intros im s _ Him. discriminate.
Qed.

Lemma image_item_ocr_disabled (pil_image : Type)
    (extract_image : Z -> exc pil_image)
    (its1 its2 : pil_image -> exc string) (xref : Z) :
  image_item pil_image extract_image its1 false xref
  = image_item pil_image extract_image its2 false xref.
Proof.
  unfold image_item. destruct (extract_image xref); reflexivity.
Qed.

Lemma page_content_ocr_disabled (pil_image : Type)
    (read_pdf : Z -> flavor -> exc (list grid))
    (extract_image : Z -> exc pil_image)
    (its1 its2 : pil_image -> exc string)
    (cv1 cv2 : Z -> exc (list pil_image))
    (ss sub : option Z) (n : Z) (pg : page) :
  page_content pil_image read_pdf extract_image its1 cv1 ss sub false n pg
  = page_content pil_image read_pdf extract_image its2 cv2 ss sub false n pg.
Proof.
  unfold page_content, ocr_items, extract_images_and_ocr.
  assert (E : map (image_item pil_image extract_image its1 false)
                (images pg)
              = map (image_item pil_image extract_image its2 false)
                  (images pg)).
  { apply map_ext. intros x. apply image_item_ocr_disabled. }
  now rewrite E.
Qed.

Lemma pages_loop_ext (pil_image : Type)
    (read_pdf : Z -> flavor -> exc (list grid))
    (extract_image : Z -> exc pil_image)
    (its1 its2 : pil_image -> exc string)
    (cv1 cv2 : Z -> exc (list pil_image))
    (ss sub : option Z) (enable_ocr : bool) (pages : list page) :
  (forall n pg,
     page_content pil_image read_pdf extract_image its1 cv1 ss sub
       enable_ocr n pg
     = page_content pil_image read_pdf extract_image its2 cv2 ss sub
         enable_ocr n pg) ->
  forall i result,
    pages_loop pil_image read_pdf extract_image its1 cv1 ss sub enable_ocr
      pages i result
    = pages_loop pil_image read_pdf extract_image its2 cv2 ss sub enable_ocr
        pages i result.
Proof.
  intros H. induction pages as [|pg rest IH]; intros i result; simpl;
    [reflexivity|].
  now rewrite H, IH.
Qed.

(** X16: the OCR engine and the page renderer are used only where the
    code says.  With OCR disabled the whole result of [parse_pdf] is the
    same whatever they would answer; and even with OCR enabled, a page with
    extractable text is never rendered for a page-level OCR. *)
Theorem ocr_is_used_only_on_demand (pil_image : Type)
    (read_pdf : Z -> flavor -> exc (list grid))
    (extract_image : Z -> exc pil_image)
    (its1 its2 : pil_image -> exc string)
    (cv1 cv2 : Z -> exc (list pil_image)) :
  (forall opened,
     parse_pdf pil_image read_pdf extract_image its1 cv1 opened false
     = parse_pdf pil_image read_pdf extract_image its2 cv2 opened false)
  /\ (forall ss sub enable_ocr n pg,
        no_extractable_text pg = false ->
        page_content pil_image read_pdf extract_image its1 cv1 ss sub
          enable_ocr n pg
        = page_content pil_image read_pdf extract_image its1 cv2 ss sub
            enable_ocr n pg).
Proof.
  split.
  - intros [doc|]; [|reflexivity]. unfold parse_pdf. cbn [bind].
    f_equal. apply pages_loop_ext. intros n pg.
    apply page_content_ocr_disabled.
  - intros ss sub enable_ocr n pg H. unfold page_content. now rewrite H.
Qed.

Lemma ocr_is_used_only_on_demand_witness :
  no_extractable_text report_page = false
  /\ page_content unit read_pdf_one_table decode_ok ocr_reads_q3 render_ok
       (Some 180) (Some 140) true 1 report_page
     = page_content unit read_pdf_one_table decode_ok ocr_reads_q3
         render_fails (Some 180) (Some 140) true 1 report_page.
Proof.
  split; [reflexivity|].
  apply (ocr_is_used_only_on_demand unit read_pdf_one_table decode_ok
           ocr_reads_q3 ocr_fails render_ok render_fails).
  reflexivity.
Defined.

(** ** Witnesses on sample inputs *)

Lemma clean_line_fixed_points_witness :
  normalized "Net Income grew" = true
  /\ clean_line "Net Income grew" = "Net Income grew".
Proof.
  split; [reflexivity|].
  apply (clean_line_fixed_points "Net Income grew"). reflexivity.
Defined.

Lemma clean_line_empty_iff_blank_witness :
  blank (String nbsp "  ") = true /\ clean_line (String nbsp "  ") = "".
Proof.
  split; [reflexivity|].
  apply (clean_line_empty_iff_blank (String nbsp "  ")). reflexivity.
Defined.

Lemma image_item_description_witness :
  exists d,
    image_item unit decode_fails ocr_fails false 7 = Chart None d None
    /\ (d = "image detected" \/ d = "image detected (failed to extract)").
Proof.
  destruct (image_item_description unit decode_fails ocr_fails false 7)
    as (d & Hd & _ & _ & Hoff & _).
  exists d. split; [exact Hd | exact (Hoff eq_refl)].
Defined.

(** ** Documents without text spans *)

(** In a document without text spans every line of every page is skipped
    by the page loop, so no line reaches the classifier. *)
Lemma no_span_document_lines_skipped (doc : document) (pg : page)
    (ln : line) (ss sub : option Z) (tol : Z) :
  collected_sizes doc = [] -> In pg doc -> In ln (page_lines pg) ->
  spans ln = [] /\ line_rule ss sub tol ln = None.
Proof.
  intros H Hpg Hln. apply page_lines_In in Hln.
  destruct Hln as (b & Hb & Ht & Hl).
  assert (E : spans ln = []).
  { destruct (spans ln) as [|sp rest] eqn:Es; [reflexivity|]. exfalso.
    assert (Hin : In (size sp) (collected_sizes doc)).
    { apply collected_sizes_spans. exists pg, b, ln, sp.
      rewrite Es. split; [assumption|]. split; [assumption|].
      split; [assumption|]. split; [assumption|].
      split; [now left | reflexivity]. }
    rewrite H in Hin. exact Hin. }
  split; [exact E|]. unfold line_rule. now rewrite E.
Qed.
